(** * generate_training.py: ingestion, filtering and generation fallback

    A shallow embedding of [deployer-training/scripts/generate_training.py]
    and the properties of its credential resolver, path filter, tree scanner,
    context assembler and generation orchestrator.

    - A Python [str] is a [string]; a character stands for a code point
      below 256, which is where [isspace], [lower] and the line boundaries
      of [splitlines] are written out.
    - A path under the repository root is the list of its name components,
      the form [Path.relative_to] returns it in.
    - The repository is a [tree] of what [os.walk] lists; the outcome of
      reading a file is part of the tree.
    - An expression that may raise has a [result]; [try_except] is the
      [try] statement.  A function that may end the process runs in the
      monad [M] over the [world]: the environment variable, the standard
      output, the requests sent and the files written.
    - The generation backend is a parameter: any function from the API key,
      the requests sent so far and the request to an answer or an error. *)

From Stdlib Require Import String Ascii List Bool ZArith Lia.
Import ListNotations.
Open Scope string_scope.
Open Scope list_scope.

(* ================================================================== *)
(** * Definitions *)
(* ================================================================== *)

(** ** Python string operations *)

Module Py.

(** The line feed, the slash and the backslash. *)
Definition LF : ascii := "010"%char.
Definition nl : string := String LF "".
Definition slash : ascii := "/"%char.
Definition backslash : ascii := "\"%char.

(** [bool(s)] of a string. *)
Definition truthy (s : string) : bool :=
  match s with EmptyString => false | String _ _ => true end.

(** [s.startswith(p)]. *)
Definition startswith (s p : string) : bool := String.prefix p s.

(** [s.endswith(p)]: some tail of [s] is [p]. *)
Fixpoint endswith (s p : string) : bool :=
  String.eqb s p ||
  match s with
  | EmptyString => false
  | String _ s' => endswith s' p
  end.

(** [p in s]: [p] starts some tail of [s]. *)
Fixpoint contains (p s : string) : bool :=
  String.prefix p s ||
  match s with
  | EmptyString => false
  | String _ s' => contains p s'
  end.

(** [s.lstrip(chars)] and [s.rstrip(chars)], the character set given as a
    predicate. *)
Fixpoint lstrip (drop : ascii -> bool) (s : string) : string :=
  match s with
  | EmptyString => EmptyString
  | String c s' => if drop c then lstrip drop s' else s
  end.

Fixpoint rstrip (drop : ascii -> bool) (s : string) : string :=
  match s with
  | EmptyString => EmptyString
  | String c s' =>
      match rstrip drop s' with
      | EmptyString => if drop c then EmptyString else String c EmptyString
      | r => String c r
      end
  end.

Definition strip_with (drop : ascii -> bool) (s : string) : string :=
  rstrip drop (lstrip drop s).

(** [c.isspace()] below code point 256: TAB..CR, FS..US, space, NEL, NBSP.
    The same class is what [\s] matches in a [str] pattern. *)
Definition isspace (c : ascii) : bool :=
  let n := nat_of_ascii c in
  (((9 <=? n) && (n <=? 13)) || ((28 <=? n) && (n <=? 32))
   || (n =? 133) || (n =? 160))%nat.

(** [s.strip()]. *)
Definition strip (s : string) : string := strip_with isspace s.

(** [s.strip("/")]. *)
Definition strip_slash (s : string) : string :=
  strip_with (Ascii.eqb slash) s.

(** [c.lower()] below code point 256: A..Z and the Latin-1 capitals
    (all of 192..222 but the multiplication sign 215) move up by 32. *)
Definition lower_char (c : ascii) : ascii :=
  let n := nat_of_ascii c in
  if (((65 <=? n) && (n <=? 90))
      || ((192 <=? n) && (n <=? 222) && negb (n =? 215)))%nat
  then ascii_of_nat (n + 32) else c.

Fixpoint lower (s : string) : string :=
  match s with
  | EmptyString => EmptyString
  | String c s' => String (lower_char c) (lower s')
  end.

(** [s.replace(a, b)] for single characters [a] and [b]. *)
Fixpoint replace_char (a b : ascii) (s : string) : string :=
  match s with
  | EmptyString => EmptyString
  | String c s' =>
      String (if Ascii.eqb c a then b else c) (replace_char a b s')
  end.

(** [s.rfind(c)] counted from index [k] of the whole string: the index of
    the last occurrence, [-1] when there is none. *)
Fixpoint rfind_from (c : ascii) (s : string) (k : Z) : Z :=
  match s with
  | EmptyString => (-1)%Z
  | String a s' =>
      let r := rfind_from c s' (k + 1)%Z in
      if (0 <=? r)%Z then r else if Ascii.eqb a c then k else (-1)%Z
  end.

Definition rfind (c : ascii) (s : string) : Z := rfind_from c s 0%Z.

(** [s[i:]] for [0 <= i]. *)
Fixpoint slice_from (i : nat) (s : string) : string :=
  match i, s with
  | O, _ => s
  | S i', String _ s' => slice_from i' s'
  | S _, EmptyString => EmptyString
  end.

(** [s[:-k]]. *)
Definition drop_last (k : nat) (s : string) : string :=
  String.substring 0 (String.length s - k) s.

(** [sep.join(parts)]. *)
Definition join (sep : string) (parts : list string) : string :=
  String.concat sep parts.

(** [s.split("\n")]: the pieces between line feeds, one more than there
    are line feeds. *)
Fixpoint split_nl (s : string) : list string :=
  match s with
  | EmptyString => [EmptyString]
  | String c s' =>
      if Ascii.eqb c LF then EmptyString :: split_nl s'
      else match split_nl s' with
           | h :: t => String c h :: t
           | [] => [String c EmptyString]
           end
  end.

(** The line boundaries of [str.splitlines] below code point 256:
    LF, VT, FF, CR, FS, GS, RS, NEL; CR LF counts once. *)
Definition is_linebreak (c : ascii) : bool :=
  let n := nat_of_ascii c in
  (((10 <=? n) && (n <=? 13)) || ((28 <=? n) && (n <=? 30))
   || (n =? 133))%nat.

(** [splitlines_from cur s]: [cur] is the line being read, reversed.  A
    last line without a terminator is kept; an empty rest adds no line. *)
Fixpoint rev_string (acc s : string) : string :=
  match s with
  | EmptyString => acc
  | String c s' => rev_string (String c acc) s'
  end.

Fixpoint splitlines_from (cur : string) (s : string) : list string :=
  match s with
  | EmptyString =>
      match cur with
      | EmptyString => []
      | _ => [rev_string "" cur]
      end
  | String c s' =>
      if is_linebreak c then
        rev_string "" cur ::
        match s' with
        | String d s'' =>
            if ((nat_of_ascii c =? 13) && (nat_of_ascii d =? 10))%nat
            then splitlines_from "" s''
            else splitlines_from "" s'
        | EmptyString => []
        end
      else splitlines_from (String c cur) s'
  end.

Definition splitlines (s : string) : list string := splitlines_from "" s.

(** [x in xs] for a set or list of strings. *)
Definition mem (x : string) (xs : list string) : bool :=
  existsb (String.eqb x) xs.

End Py.


(** ** Exceptions and process exit *)

(** A raised [Exception], by its description. *)
Inductive exn : Type := Exn (description : string).

(** The value of an expression that may raise. *)
Inductive result (A : Type) : Type :=
| Ok (a : A)
| Raise (e : exn).
Arguments Ok {A} a.
Arguments Raise {A} e.

Definition result_bind {A B} (r : result A) (k : A -> result B) : result B :=
  match r with
  | Ok a => k a
  | Raise e => Raise e
  end.

(** [try: body / except Exception as e: handler e]. *)
Definition try_except {A} (body : result A) (handler : exn -> result A)
  : result A :=
  match body with
  | Ok a => Ok a
  | Raise e => handler e
  end.

(** ** Configuration (lines 27-50) *)

Definition PRIMARY_MODEL : string := "gemini-3-pro-preview".
Definition FALLBACK_MODEL : string := "gemini-2.0-flash-exp".

Definition TEXT_EXTENSIONS : list string :=
  [ ".py"; ".js"; ".ts"; ".jsx"; ".tsx"; ".go"; ".rs"; ".java"; ".kt";
    ".scala"; ".c"; ".cpp"; ".h"; ".hpp"; ".cs"; ".swift"; ".rb"; ".php";
    ".pl"; ".lua"; ".sh"; ".bash"; ".zsh"; ".ps1"; ".bat"; ".cmd";
    ".html"; ".htm"; ".css"; ".scss"; ".sass"; ".less";
    ".json"; ".yaml"; ".yml"; ".toml"; ".ini"; ".cfg"; ".conf";
    ".xml"; ".xsl"; ".xslt";
    ".md"; ".markdown"; ".rst"; ".txt"; ".adoc";
    ".sql"; ".graphql"; ".gql";
    ".dockerfile"; ".makefile"; ".cmake" ].

Definition EXCLUDED_FILES : list string :=
  [ ".env"; ".env.local"; ".env.production"; ".env.development" ].

(** Declared next to [EXCLUDED_FILES]; no function of the script reads it. *)
Definition EXCLUDED_PATTERNS : list string :=
  [ "*.key"; "*.pem"; "*.secret"; "*_key.txt" ].

(** The directory names [scan_codebase] adds to every rule set. *)
Definition DEFAULT_IGNORED : list string :=
  [ "node_modules"; ".git"; "__pycache__"; ".venv"; "venv"; "dist"; "build" ].

(** The two names accepted without an extension (line 144). *)
Definition EXTENSIONLESS_NAMES : list string := [ "dockerfile"; "makefile" ].

(** ** Paths relative to the repository root *)

Module Path.

(** [path.name]: the final component, empty for the root itself. *)
Definition name (rel : list string) : string := last rel "".

(** [str(relative_path)] with the POSIX separator. *)
Definition str (rel : list string) : string :=
  match rel with
  | [] => "."
  | _ => Py.join "/" rel
  end.

(** [str(relative_path).replace("\\", "/")]. *)
Definition path_str (rel : list string) : string :=
  Py.replace_char Py.backslash Py.slash (str rel).

(** [PurePath.suffix] of a name: from the last dot on, unless that dot
    is the first or the last character ([0 < i < len(name) - 1]). *)
Definition suffix (nm : string) : string :=
  let i := Py.rfind "." nm in
  if ((0 <? i) && (i <? Z.of_nat (String.length nm) - 1))%Z
  then Py.slice_from (Z.to_nat i) nm
  else "".

End Path.

(** ** The path filter: [is_ignored] (lines 103-120) *)

(** The loop over the ignore patterns, lines 113-118.  The patterns are a
    Python set; the list stands for it in some order of iteration, and the
    loop only asks whether some pattern matches. *)
Fixpoint match_patterns (path_str name : string) (gitignore_patterns : list string)
  : bool :=
  match gitignore_patterns with
  | [] => false
  | pattern :: rest =>
      let pattern_clean := Py.strip_slash pattern in
      if Py.contains pattern_clean path_str || String.eqb name pattern_clean
      then true
      else if Py.endswith pattern_clean "/"
              && Py.startswith path_str pattern_clean
      then true
      else match_patterns path_str name rest
  end.

Definition is_ignored (rel : list string) (gitignore_patterns : list string)
  : bool :=
  let path_str := Path.path_str rel in
  if Py.mem (Path.name rel) EXCLUDED_FILES then true
  else match_patterns path_str (Path.name rel) gitignore_patterns.

(** The extension test of line 144, as the condition under which the file
    is kept. *)
Definition extension_ok (file_name : string) : bool :=
  Py.mem (Py.lower (Path.suffix file_name)) TEXT_EXTENSIONS
  || Py.mem (Py.lower file_name) EXTENSIONLESS_NAMES.

(** ** The repository tree *)

(** What [os.walk] lists in one directory: the files, each with the outcome
    of [read_text(encoding="utf-8")] on it, and the subdirectories, both in
    listing order.  A directory that cannot be listed and a symbolic link to
    a directory (listed, not entered) are directories without entries. *)
#[local] Unset Elimination Schemes.
Inductive tree : Type :=
| Dir (files : list (string * result string)) (dirs : list (string * tree)).
#[local] Set Elimination Schemes.

Definition tree_files (t : tree) : list (string * result string) :=
  match t with Dir files _ => files end.

Record FileRecord : Type := mkFileRecord { path : string; content : string }.

(** Induction on a tree, with the property known of every subdirectory. *)
Section TreeInduction.

Variable P : tree -> Prop.
Hypothesis step : forall files dirs,
  Forall (fun ds => P (snd ds)) dirs -> P (Dir files dirs).

Fixpoint tree_ind' (t : tree) : P t :=
  match t with
  | Dir files dirs =>
      step files dirs
        ((fix all (ds : list (string * tree)) : Forall (fun ds => P (snd ds)) ds :=
            match ds with
            | [] => Forall_nil _
            | x :: ds' => Forall_cons x (tree_ind' (snd x)) (all ds')
            end) dirs)
  end.

End TreeInduction.

(** ** The ignore-rule loader (lines 88-100) *)

Definition pattern_lines (text : string) : list string :=
  filter (fun line => Py.truthy line && negb (Py.startswith line "#"))
         (map Py.strip (Py.splitlines text)).

(** [.gitignore] is looked up in the root.  A missing entry, one that is a
    directory and one that cannot be read all leave the set empty. *)
Definition load_gitignore_patterns (repo_root : tree) : list string :=
  match find (fun f => String.eqb (fst f) ".gitignore") (tree_files repo_root) with
  | Some (_, read_text) =>
      match try_except (result_bind read_text (fun text => Ok (pattern_lines text)))
                       (fun _ => Ok [])
      with
      | Ok patterns => patterns
      | Raise _ => []
      end
  | None => []
  end.

(** ** The tree scanner (lines 123-157) *)

(** The body of the loop over [files], lines 138-155. *)
Definition scan_file (gitignore_patterns : list string) (root_rel : list string)
           (file_name : string) (read_text : result string)
           (files_data : list FileRecord) : result (list FileRecord) :=
  let file_path := root_rel ++ [file_name] in
  if is_ignored file_path gitignore_patterns then Ok files_data
  else if negb (extension_ok file_name) then Ok files_data
  else try_except
         (result_bind read_text (fun content =>
            Ok (files_data ++ [mkFileRecord (Path.path_str file_path) content])))
         (fun _ => Ok files_data).

Fixpoint scan_files (gitignore_patterns : list string) (root_rel : list string)
         (files : list (string * result string)) (files_data : list FileRecord)
  : result (list FileRecord) :=
  match files with
  | [] => Ok files_data
  | (file_name, read_text) :: rest =>
      result_bind (scan_file gitignore_patterns root_rel file_name read_text files_data)
                  (scan_files gitignore_patterns root_rel rest)
  end.

(** [os.walk] top-down with the in-place filter of [dirs] (line 135): the
    files of a directory are handled when it is yielded, then the walk
    descends into the subdirectories that were kept, in order. *)
Fixpoint walk (gitignore_patterns : list string) (t : tree) (root_rel : list string)
         (files_data : list FileRecord) {struct t} : result (list FileRecord) :=
  match t with
  | Dir files dirs =>
      result_bind (scan_files gitignore_patterns root_rel files files_data)
        (fun files_data =>
           (fix walk_dirs (ds : list (string * tree)) (files_data : list FileRecord)
              : result (list FileRecord) :=
              match ds with
              | [] => Ok files_data
              | (d, sub) :: ds' =>
                  if is_ignored (root_rel ++ [d]) gitignore_patterns
                  then walk_dirs ds' files_data
                  else result_bind (walk gitignore_patterns sub (root_rel ++ [d]) files_data)
                                   (walk_dirs ds')
              end) dirs files_data)
  end.

Definition scan_codebase (repo_root : tree) : result (list FileRecord) :=
  let gitignore_patterns := load_gitignore_patterns repo_root ++ DEFAULT_IGNORED in
  walk gitignore_patterns repo_root [] [].

(** ** The context assembler (lines 160-165) *)

Definition context_part (file_info : FileRecord) : string :=
  "--- FILE: " ++ path file_info ++ " ---" ++ Py.nl ++ content file_info ++ Py.nl.

Definition build_context (files_data : list FileRecord) : string :=
  Py.join Py.nl (map context_part files_data).

(** Reading the context back: the lines of the blob are cut at every
    delimiter line; the text of a record is what stands between its
    delimiter and the next one, without the closing empty line. *)

Definition DELIM_PREFIX : string := "--- FILE: ".
Definition DELIM_SUFFIX : string := " ---".

Definition is_delimiter (line : string) : bool :=
  Py.startswith line DELIM_PREFIX && Py.endswith line DELIM_SUFFIX
  && (String.length DELIM_PREFIX + String.length DELIM_SUFFIX <=? String.length line)%nat.

Definition delimiter_path (line : string) : string :=
  Py.drop_last (String.length DELIM_SUFFIX)
               (Py.slice_from (String.length DELIM_PREFIX) line).

Fixpoint take_body (lines : list string) : list string :=
  match lines with
  | [] => []
  | l :: rest => if is_delimiter l then [] else l :: take_body rest
  end.

Fixpoint split_lines_on_delimiter (lines : list string) : list FileRecord :=
  match lines with
  | [] => []
  | l :: rest =>
      if is_delimiter l
      then mkFileRecord (delimiter_path l)
                        (Py.join Py.nl (removelast (take_body rest)))
           :: split_lines_on_delimiter rest
      else split_lines_on_delimiter rest
  end.

Definition split_context (blob : string) : list FileRecord :=
  split_lines_on_delimiter (Py.split_nl blob).

(** ** The process: environment, standard output, requests, written files *)

(** One generation request: the model and the user prompt.  The system
    instruction and the sampling configuration are the same constants in
    every request. *)
Record request : Type := mkRequest { req_model : string; req_contents : string }.

(** The lines the script prints, by the statement that prints them. *)
Inductive message : Type :=
| MsgKeyNotSet                                  (* line 83 *)
| MsgAttempting (model : string)                (* line 259 *)
| MsgNoText (model : string)                    (* line 268 *)
| MsgModelFailed (model : string) (e : exn)     (* line 270 *)
| MsgAllModelsFailed                            (* line 273 *)
| MsgLastError (e : exn)                        (* line 275 *)
| MsgPathNotFound (repo_root : string)          (* line 303 *)
| MsgScanning (repo_root : string)              (* line 306 *)
| MsgFound (n : nat)                            (* line 308 *)
| MsgNoFiles                                    (* line 311 *)
| MsgContextSize (n : nat)                      (* line 315 *)
| MsgGenerating                                 (* line 317 *)
| MsgSaved (output_path : string)               (* line 322 *)
| MsgReviewNote.                                (* line 324 *)

Record world : Type := mkWorld {
  environ : option string;              (* os.environ.get("GEMINI_API_KEY") *)
  stdout : list message;
  requests : list request;              (* sent to the backend, oldest first *)
  written : list (string * string)      (* files written: path and text *)
}.

(** A call either returns or ends the process with [sys.exit(code)]. *)
Inductive outcome (A : Type) : Type :=
| Returns (a : A)
| SysExit (code : Z).
Arguments Returns {A} a.
Arguments SysExit {A} code.

Definition M (A : Type) : Type := world -> outcome A * world.

Definition ret {A} (a : A) : M A := fun w => (Returns a, w).

Definition bind {A B} (m : M A) (k : A -> M B) : M B :=
  fun w => match m w with
           | (Returns a, w') => k a w'
           | (SysExit c, w') => (SysExit c, w')
           end.

Notation "x <- m ;; k" := (bind m (fun x => k))
  (at level 61, m at next level, right associativity).
Notation "m ;;; k" := (bind m (fun _ => k))
  (at level 61, right associativity).

Definition print (m : message) : M unit :=
  fun w => (Returns tt, mkWorld (environ w) (stdout w ++ [m]) (requests w) (written w)).

Definition sys_exit {A} (code : Z) : M A := fun w => (SysExit code, w).

Definition environ_get : M (option string) := fun w => (Returns (environ w), w).

Definition write_text (output_path text : string) : M unit :=
  fun w => (Returns tt,
            mkWorld (environ w) (stdout w) (requests w) (written w ++ [(output_path, text)])).

(** [bool(x)] of a value that is [None] or a string. *)
Definition truthy_opt (x : option string) : bool :=
  match x with
  | Some s => Py.truthy s
  | None => false
  end.

(** [a or b] on such values. *)
Definition py_or (a b : option string) : option string :=
  if truthy_opt a then a else b.

(** ** The credential resolver (lines 53-85) *)

(** The [.env] entry of a directory: absent ([exists()] is false), present
    but [read_text] raises, or readable. *)
Inductive dotenv : Type :=
| NoFile
| Unreadable (e : exn)
| Text (text : string).

(** The directory of the script and its ancestors; the filesystem root is
    the directory that is its own parent. *)
Inductive location : Type :=
| FsRoot (env_file : dotenv)
| Child (env_file : dotenv) (parent : location).

Definition env_file_of (d : location) : dotenv :=
  match d with
  | FsRoot f => f
  | Child f _ => f
  end.

Definition KEY_NAME : string := "GEMINI_API_KEY".

Definition is_quote (c : ascii) : bool :=
  Ascii.eqb c "034"%char || Ascii.eqb c "'"%char.

Definition last_char (s : string) : option ascii :=
  String.get (String.length s - 1) s.

(** [re.match] of line 65 on a stripped line: the groups [(1)] and [(2)].
    Both alternatives read the name, white space, the equals sign and white
    space; the first takes a value between two quote characters, the second
    the whole rest of the line. *)
Definition re_match_key (line : string) : option (option string * option string) :=
  if Py.startswith line KEY_NAME then
    match Py.lstrip Py.isspace (Py.slice_from (String.length KEY_NAME) line) with
    | String "=" rest =>
        let value := Py.lstrip Py.isspace rest in
        match value with
        | String q inner =>
            if is_quote q && (2 <=? String.length value)%nat
               && match last_char value with Some q' => is_quote q' | None => false end
            then Some (Some (Py.drop_last 1 inner), None)
            else Some (None, Some value)
        | EmptyString => Some (None, Some value)
        end
    | _ => None
    end
  else None.

(** [os.environ["GEMINI_API_KEY"] = key] (line 68): the value stored, or
    the exception raised: [TypeError] when [key] is [None], [ValueError]
    when the string contains the character of code 0. *)
Definition NUL : string := String "000"%char "".

Definition environ_assign (key : option string) : result string :=
  match key with
  | None => Raise (Exn "TypeError: str expected, not NoneType")
  | Some k =>
      if Py.contains NUL k then Raise (Exn "ValueError: embedded null byte")
      else Ok k
  end.

(** The loop over the lines of one file, lines 61-69.  [Ok (Some key)] is
    the assignment followed by [return]; an exception of the assignment
    leaves the loop. *)
Fixpoint scan_env_lines (lines : list string) : result (option string) :=
  match lines with
  | [] => Ok None
  | line :: rest =>
      let line := Py.strip line in
      if negb (Py.truthy line) || Py.startswith line "#" then scan_env_lines rest
      else match re_match_key line with
           | Some (g1, g2) =>
               result_bind (environ_assign (py_or g1 g2))
                           (fun key => Ok (Some key))
           | None => scan_env_lines rest
           end
  end.

(** One directory, lines 57-71: the key the file assigns, if any. *)
Definition read_env_path (f : dotenv) : option string :=
  match f with
  | NoFile => None
  | Unreadable e =>
      match try_except (Raise e) (fun _ => Ok None) with
      | Ok k => k
      | Raise _ => None
      end
  | Text text =>
      match try_except (scan_env_lines (Py.splitlines text)) (fun _ => Ok None) with
      | Ok k => k
      | Raise _ => None
      end
  end.

(** The loop [for _ in range(6)], lines 56-74: the value of the variable
    when [load_env_file] returns. *)
Fixpoint load_env_loop (n : nat) (current_dir : location) (env : option string)
  : option string :=
  match n with
  | O => env
  | S n' =>
      match read_env_path (env_file_of current_dir) with
      | Some key => Some key
      | None =>
          match current_dir with
          | FsRoot _ => env
          | Child _ parent => load_env_loop n' parent env
          end
      end
  end.

Section Process.

(** Where the script is installed, the backend behind [genai.Client] (what
    a request answers, given the API key and the requests sent before it
    in this run) and the directories that exist, by path. *)
Variable script_dir : location.
Variable genai_Client : string -> list request -> request -> result (option string).
Variable resolve : string -> option tree.

Definition load_env_file : M unit :=
  fun w => (Returns tt,
            mkWorld (load_env_loop 6 script_dir (environ w))
                    (stdout w) (requests w) (written w)).

Definition get_api_key : M string :=
  e <- environ_get ;;
  (if negb (truthy_opt e) then load_env_file else ret tt) ;;;
  api_key <- environ_get ;;
  match api_key with
  | Some k => if Py.truthy k then ret k
              else (print MsgKeyNotSet ;;; sys_exit 1)
  | None => print MsgKeyNotSet ;;; sys_exit 1
  end.

(** ** The generation orchestrator (lines 237-276) *)

Definition user_prompt (context : string) : string :=
  "Analyze the following codebase and generate the Deployer & Developer Guide."
  ++ Py.nl ++ Py.nl ++ "CODEBASE CONTENTS:" ++ Py.nl ++ context
  ++ Py.nl ++ Py.nl ++ "Generate the complete documentation now.".

(** [client.models.generate_content(...)] followed by [response.text]. *)
Definition generate_content (api_key : string) (model contents : string)
  : M (result (option string)) :=
  fun w =>
    let req := mkRequest model contents in
    (Returns (genai_Client api_key (requests w) req),
     mkWorld (environ w) (stdout w) (requests w ++ [req]) (written w)).

Definition models_to_try (model_name : option string) : list string :=
  match model_name with
  | Some m => if Py.truthy m then [m] else [PRIMARY_MODEL; FALLBACK_MODEL]
  | None => [PRIMARY_MODEL; FALLBACK_MODEL]
  end.

(** The loop of lines 258-271 and the lines after it. *)
Fixpoint try_models (api_key contents : string) (models : list string)
         (last_exception : option exn) : M string :=
  match models with
  | [] =>
      print MsgAllModelsFailed ;;;
      (match last_exception with
       | Some e => print (MsgLastError e)
       | None => ret tt
       end) ;;;
      sys_exit 1
  | model :: rest =>
      print (MsgAttempting model) ;;;
      response <- generate_content api_key model contents ;;
      match response with
      | Ok text =>
          match text with
          | Some t =>
              if Py.truthy t then ret (Py.strip t)
              else (print (MsgNoText model) ;;;
                    try_models api_key contents rest last_exception)
          | None =>
              print (MsgNoText model) ;;;
              try_models api_key contents rest last_exception
          end
      | Raise e =>
          print (MsgModelFailed model e) ;;;
          try_models api_key contents rest (Some e)
      end
  end.

Definition generate_documentation (context : string) (model_name : option string)
  : M string :=
  api_key <- get_api_key ;;
  try_models api_key (user_prompt context) (models_to_try model_name) None.

(** ** [main] (lines 279-324), after argument parsing

    [resolve] stands for [Path(args.path).resolve()] and [exists()].  An
    exception leaving [scan_codebase] would be uncaught and end the process
    with status 1. *)

Record args : Type := mkArgs {
  arg_path : string; arg_output : string; arg_model : option string }.

Definition main (a : args) : M unit :=
  match resolve (arg_path a) with
  | None => print (MsgPathNotFound (arg_path a)) ;;; sys_exit 1
  | Some repo_root =>
      print (MsgScanning (arg_path a)) ;;;
      match scan_codebase repo_root with
      | Raise _ => sys_exit 1
      | Ok files_data =>
          print (MsgFound (List.length files_data)) ;;;
          match files_data with
          | [] => print MsgNoFiles ;;; sys_exit 1
          | _ =>
              let context := build_context files_data in
              print (MsgContextSize (String.length context)) ;;;
              print MsgGenerating ;;;
              documentation <- generate_documentation context (arg_model a) ;;
              write_text (arg_output a) documentation ;;;
              print (MsgSaved (arg_output a)) ;;;
              print MsgReviewNote
          end
      end
  end.

End Process.

Definition initial_world (env : option string) : world := mkWorld env [] [] [].

(** ** Vocabulary of the statements *)

(** [sub] occurs in [s]. *)
Definition occurs_in (sub s : string) : Prop :=
  exists l r, s = (l ++ sub ++ r)%string.

Definition starts_with (s p : string) : Prop := exists r, s = (p ++ r)%string.
Definition ends_with (s p : string) : Prop := exists l, s = (l ++ p)%string.

(** The three tests of the loop body for one pattern, the third one read on
    the pattern as written in the ignore file. *)
Definition pattern_excludes (path_str name pattern : string) : Prop :=
  occurs_in (Py.strip_slash pattern) path_str
  \/ name = Py.strip_slash pattern
  \/ (ends_with pattern "/" /\ starts_with path_str pattern).

(** The same, the third test read on the trimmed pattern, as line 117
    has it. *)
Definition pattern_excludes_trimmed (path_str name pattern : string) : Prop :=
  occurs_in (Py.strip_slash pattern) path_str
  \/ name = Py.strip_slash pattern
  \/ (ends_with (Py.strip_slash pattern) "/"
      /\ starts_with path_str (Py.strip_slash pattern)).


(** The scan of a tree under a given rule set; [scan_codebase] is this
    function at the rule set it loads. *)
Definition scan_with (gitignore_patterns : list string) (repo_root : tree)
  : result (list FileRecord) :=
  walk gitignore_patterns repo_root [] [].

Definition rules_of (repo_root : tree) : list string :=
  load_gitignore_patterns repo_root ++ DEFAULT_IGNORED.

(** [dir_at t rel sub]: following the names [rel] down from [t] leads to the
    directory [sub]. *)
Inductive dir_at : tree -> list string -> tree -> Prop :=
| dir_at_here (t : tree) : dir_at t [] t
| dir_at_below (files : list (string * result string)) (dirs : list (string * tree))
    (d : string) (sub : tree) (rel : list string) (t' : tree) :
    In (d, sub) dirs -> dir_at sub rel t' -> dir_at (Dir files dirs) (d :: rel) t'.

(** [file_at t rel r]: [rel] names a regular file of the tree, and reading
    it gives [r]. *)
Definition file_at (t : tree) (rel : list string) (r : result string) : Prop :=
  exists parent file_name sub,
    rel = parent ++ [file_name] /\ dir_at t parent sub
    /\ In (file_name, r) (tree_files sub).

(** [p] is a non-empty proper prefix of [rel]: an ancestor directory of
    [rel] below the root. *)
Definition ancestor_of (p rel : list string) : Prop :=
  p <> [] /\ exists rest, rest <> [] /\ rel = p ++ rest.

(** [p] is [rel] or an ancestor directory of [rel] below the root. *)
Definition on_path_to (p rel : list string) : Prop :=
  p <> [] /\ exists rest, rel = p ++ rest.

(** The walk yields the directory [rel]: it is in the tree and neither it
    nor a directory above it was filtered out of [dirs]. *)
Definition visited (pats : list string) (t : tree) (rel : list string) : Prop :=
  (exists sub, dir_at t rel sub)
  /\ forall p, on_path_to p rel -> is_ignored p pats = false.

(** The walk tests the directory [d] when it lists the parent of [d], and
    filters it out. *)
Definition pruned (pats : list string) (t : tree) (d : list string) : Prop :=
  exists parent name,
    d = parent ++ [name] /\ visited pats t parent
    /\ (exists sub, dir_at t d sub) /\ is_ignored d pats = true.

(** Names without a slash, which no file system allows in a name, and
    without a backslash, which POSIX allows and Windows does not. *)
Fixpoint has_char (c : ascii) (s : string) : bool :=
  match s with
  | EmptyString => false
  | String a s' => Ascii.eqb a c || has_char c s'
  end.

Definition plain_name (nm : string) : bool :=
  negb (has_char Py.slash nm) && negb (has_char Py.backslash nm).

Fixpoint plain_names (t : tree) : bool :=
  match t with
  | Dir files dirs =>
      forallb (fun f => plain_name (fst f)) files
      && forallb (fun ds => let '(d, sub) := ds in plain_name d && plain_names sub) dirs
  end.

(** The tree with everything below a filtered-out directory removed. *)
Fixpoint erase_pruned (pats : list string) (t : tree) (root_rel : list string) : tree :=
  match t with
  | Dir files dirs =>
      Dir files
          (map (fun ds => let '(d, sub) := ds in
                  (d, if is_ignored (root_rel ++ [d]) pats then Dir [] []
                      else erase_pruned pats sub (root_rel ++ [d])))
               dirs)
  end.

(** The tree with only the files that satisfy [keep]. *)
Fixpoint filter_files (keep : string * result string -> bool) (t : tree) : tree :=
  match t with
  | Dir files dirs =>
      Dir (filter keep files)
          (map (fun ds => let '(d, sub) := ds in (d, filter_files keep sub)) dirs)
  end.


Definition has_text_extension (f : string * result string) : bool :=
  extension_ok (fst f).

(** What [fnmatch] answers for a pattern that is a star followed by plain
    text, the form of every entry of [EXCLUDED_PATTERNS]. *)
Definition fnmatch_star (name pattern : string) : bool :=
  match pattern with
  | String "*" rest => Py.endswith name rest
  | _ => String.eqb name pattern
  end.

Definition matches_excluded_pattern (name : string) : bool :=
  existsb (fnmatch_star name) EXCLUDED_PATTERNS.

(** The files the scan keeps, each with the components of its path: a
    readable file that passes [is_ignored] and the extension test, in a
    directory the walk yields. *)
Definition keeps_file (pats : list string) (root_rel : list string)
           (f : string * result string) : list (list string * string) :=
  match snd f with
  | Ok text =>
      if negb (is_ignored (root_rel ++ [fst f]) pats) && extension_ok (fst f)
      then [(root_rel ++ [fst f], text)] else []
  | Raise _ => []
  end.

Fixpoint kept_files (pats : list string) (t : tree) (root_rel : list string)
  : list (list string * string) :=
  match t with
  | Dir files dirs =>
      flat_map (keeps_file pats root_rel) files
      ++ flat_map (fun ds => let '(d, sub) := ds in
                     if is_ignored (root_rel ++ [d]) pats then []
                     else kept_files pats sub (root_rel ++ [d]))
                  dirs
  end.

Definition record_of (kept : list string * string) : FileRecord :=
  mkFileRecord (Path.path_str (fst kept)) (snd kept).

(** A tree a POSIX file system can hold: the directory [.env] next to a
    file whose name has a backslash in it. *)
Definition backslash_tree : tree :=
  Dir [(".env\foo.py", Ok "print(1)")] [(".env", Dir [("settings.py", Ok "DEBUG = 1")] [])].

(** A record that can be read back from the context: its path has no line
    feed and no line of its text is a delimiter line. *)
Definition well_delimited (r : FileRecord) : bool :=
  negb (has_char Py.LF (path r))
  && forallb (fun line => negb (is_delimiter line)) (Py.split_nl (content r)).

(** The lines one record contributes to the context. *)
Definition context_lines (r : FileRecord) : list string :=
  [(DELIM_PREFIX ++ path r ++ DELIM_SUFFIX)%string] ++ Py.split_nl (content r) ++ [""].

(** Two scan results with the same context: a text that contains a
    delimiter line, and the two records it reads as. *)
Definition embedded_delimiter : list FileRecord :=
  [mkFileRecord "a.md" ("one" ++ Py.nl ++ Py.nl ++ "--- FILE: b.md ---" ++ Py.nl ++ "two")%string].

Definition two_records : list FileRecord :=
  [mkFileRecord "a.md" "one"; mkFileRecord "b.md" "two"].

(** The lines are empty or begin with a delimiter line. *)
Definition opens_with_delimiter (lines : list string) : Prop :=
  match lines with
  | [] => True
  | l :: _ => is_delimiter l = true
  end.


(** The generation attempts of one run: each candidate in turn with what the
    backend answers, up to and including the first one that returns
    non-empty text. *)
Definition succeeded (r : result (option string)) : option string :=
  match r with
  | Ok (Some t) => if Py.truthy t then Some t else None
  | _ => None
  end.

Fixpoint attempts (client : list request -> request -> result (option string))
         (contents : string) (history : list request) (models : list string)
  : list (string * result (option string)) :=
  match models with
  | [] => []
  | model :: rest =>
      let response := client history (mkRequest model contents) in
      (model, response) ::
      match succeeded response with
      | Some _ => []
      | None => attempts client contents (history ++ [mkRequest model contents]) rest
      end
  end.

(** The text of the successful attempt, if there is one. *)
Fixpoint first_success (att : list (string * result (option string)))
  : option string :=
  match att with
  | [] => None
  | a :: later =>
      match succeeded (snd a) with
      | Some t => Some t
      | None => first_success later
      end
  end.

(** What is printed for one attempt, and the error kept for the end. *)
Definition attempt_log (a : string * result (option string)) : list message :=
  MsgAttempting (fst a) ::
  match snd a with
  | Raise e => [MsgModelFailed (fst a) e]
  | Ok _ => match succeeded (snd a) with
            | Some _ => []
            | None => [MsgNoText (fst a)]
            end
  end.

Fixpoint last_error (att : list (string * result (option string)))
         (before : option exn) : option exn :=
  match att with
  | [] => before
  | a :: later =>
      last_error later (match snd a with Raise e => Some e | Ok _ => before end)
  end.

Definition failure_report (last_exception : option exn) : list message :=
  MsgAllModelsFailed ::
  match last_exception with
  | Some e => [MsgLastError e]
  | None => []
  end.

(** The world after some more lines were printed. *)
Definition printed (w : world) (lines : list message) : world :=
  mkWorld (environ w) (stdout w ++ lines) (requests w) (written w).

(** What [main] has printed when it calls [generate_documentation]. *)
Definition before_generation (a : args) (files_data : list FileRecord) (w : world)
  : world :=
  printed w [MsgScanning (arg_path a); MsgFound (List.length files_data);
             MsgContextSize (String.length (build_context files_data));
             MsgGenerating].

(** A backend whose primary model raises and whose fallback model answers
    with white space around the text. *)
Definition padded_backend (api_key : string) (history : list request) (r : request)
  : result (option string) :=
  if String.eqb (req_model r) PRIMARY_MODEL
  then Raise (Exn "503 UNAVAILABLE")
  else Ok (Some "  # Guide  ").

(** A script directory whose [.env] assigns the key an empty quoted value
    and then a value, below a directory whose [.env] assigns another; and
    the same with the first value empty and unquoted. *)
Definition quoted_empty_env : location :=
  Child (Text ("GEMINI_API_KEY=''" ++ Py.nl ++ "GEMINI_API_KEY=abc")%string)
        (FsRoot (Text "GEMINI_API_KEY=xyz")).

Definition unquoted_empty_env : location :=
  Child (Text ("GEMINI_API_KEY=" ++ Py.nl ++ "GEMINI_API_KEY=abc")%string)
        (FsRoot (Text "GEMINI_API_KEY=xyz")).

(** The first [n] directories of the chain, the last of them made the
    root. *)
Fixpoint truncate (n : nat) (d : location) : location :=
  match n, d with
  | S (S n'), Child f parent => Child f (truncate (S n') parent)
  | _, _ => FsRoot (env_file_of d)
  end.

(** A backend whose primary model raises and whose fallback model answers
    without text. *)
Definition failing_backend (api_key : string) (history : list request) (r : request)
  : result (option string) :=
  if String.eqb (req_model r) PRIMARY_MODEL
  then Raise (Exn "429 RESOURCE_EXHAUSTED")
  else Ok None.

(** ** Vocabulary of the further properties *)

(** A string of white space only. *)
Fixpoint all_space (s : string) : bool :=
  match s with
  | EmptyString => true
  | String c s' => Py.isspace c && all_space s'
  end.

(** A line of a [.env] file that the loop of lines 61-69 passes over: blank,
    a comment, or not an assignment of the key. *)
Definition passed_over (line : string) : bool :=
  let line := Py.strip line in
  negb (Py.truthy line) || Py.startswith line "#"
  || match re_match_key line with Some _ => false | None => true end.

(** The line [GEMINI_API_KEY <ws1> = <ws2> <value>]. *)
Definition key_line (ws1 ws2 value : string) : string :=
  (KEY_NAME ++ ws1 ++ "=" ++ ws2 ++ value)%string.

(** The world with another value of the environment variable. *)
Definition with_environ (env : option string) (w : world) : world :=
  mkWorld env (stdout w) (requests w) (written w).
(* ================================================================== *)
(** * Properties *)
(* ================================================================== *)

(** ** Strings *)

Section StringFacts.

Open Scope string_scope.

Lemma append_nil_r (s : string) : s ++ "" = s.
Proof. induction s; simpl; congruence. Qed.

Lemma append_assoc (a b c : string) : (a ++ b) ++ c = a ++ b ++ c.
Proof. induction a; simpl; congruence. Qed.

Lemma append_length (a b : string) :
  String.length (a ++ b) = (String.length a + String.length b)%nat.
Proof. induction a; simpl; congruence. Qed.

Lemma prefix_spec (p s : string) :
  String.prefix p s = true <-> exists r, s = p ++ r.
Proof.
  revert s; induction p as [|c p IH]; intros s.
  - destruct s; simpl; split; eauto.
  - destruct s as [|d s]; simpl.
    + split; [discriminate | intros [r H]; discriminate].
    + destruct (ascii_dec c d) as [->|Hne].
      * rewrite IH. split; intros [r H]; exists r; congruence.
      * split; [discriminate | intros [r H]; congruence].
Qed.

Lemma contains_spec (p s : string) :
  Py.contains p s = true <-> exists l r, s = l ++ p ++ r.
Proof.
  induction s as [|c s IH]; cbn [Py.contains].
  - rewrite orb_false_r, prefix_spec. split.
    + intros [r H]. exists "", r. exact H.
    + intros [l [r H]]. destruct l; [eauto | discriminate].
  - rewrite orb_true_iff, prefix_spec, IH. split.
    + intros [[r H] | [l [r H]]].
      * exists "", r. exact H.
      * exists (String c l), r. simpl. congruence.
    + intros [l [r H]]. destruct l as [|d l]; simpl in H.
      * left. eauto.
      * right. injection H as _ H. eauto.
Qed.

Lemma endswith_spec (s p : string) :
  Py.endswith s p = true <-> exists l, s = l ++ p.
Proof.
  induction s as [|c s IH]; cbn [Py.endswith].
  - rewrite orb_false_r, String.eqb_eq. split.
    + intros <-. exists "". reflexivity.
    + intros [l H]. destruct l; simpl in H; [assumption | discriminate].
  - rewrite orb_true_iff, String.eqb_eq, IH. split.
    + intros [<- | [l ->]]; [exists "" | exists (String c l)]; reflexivity.
    + intros [l H]. destruct l as [|d l]; simpl in H.
      * left. assumption.
      * right. injection H as _ H. eauto.
Qed.

Lemma mem_spec (x : string) (xs : list string) :
  Py.mem x xs = true <-> In x xs.
Proof.
  unfold Py.mem. rewrite existsb_exists. split.
  - intros [y [Hin Heq]]. apply String.eqb_eq in Heq. congruence.
  - intros Hin. exists x. split; [assumption | apply String.eqb_refl].
Qed.

(** What [lstrip] and [rstrip] remove, and that [rstrip] leaves no
    removable character at the end. *)
Lemma lstrip_split (drop : ascii -> bool) (s : string) :
  exists l, s = l ++ Py.lstrip drop s.
Proof.
  induction s as [|c s [l IH]]; simpl.
  - exists "". reflexivity.
  - destruct (drop c).
    + exists (String c l). simpl. congruence.
    + exists "". reflexivity.
Qed.

Lemma rstrip_split (drop : ascii -> bool) (s : string) :
  exists r, s = Py.rstrip drop s ++ r.
Proof.
  induction s as [|c s [r IH]]; simpl.
  - exists "". reflexivity.
  - destruct (Py.rstrip drop s) as [|d t] eqn:E.
    + destruct (drop c).
      * exists (String c s). reflexivity.
      * exists r. simpl. simpl in IH. congruence.
    + exists r. simpl. simpl in IH. congruence.
Qed.

Lemma strip_with_split (drop : ascii -> bool) (s : string) :
  exists l r, s = l ++ Py.strip_with drop s ++ r.
Proof.
  unfold Py.strip_with.
  destruct (lstrip_split drop s) as [l Hl].
  destruct (rstrip_split drop (Py.lstrip drop s)) as [r Hr].
  exists l, r. rewrite <- Hr. exact Hl.
Qed.

Lemma rstrip_last (drop : ascii -> bool) (s l : string) (c : ascii) :
  Py.rstrip drop s = l ++ String c "" -> drop c = false.
Proof.
  revert l; induction s as [|a s IH]; intros l H; simpl in H.
  - destruct l; discriminate.
  - destruct (Py.rstrip drop s) as [|d t] eqn:E.
    + destruct (drop a) eqn:Ea.
      * destruct l; discriminate.
      * destruct l as [|x l]; simpl in H.
        -- congruence.
        -- injection H as _ H. destruct l; discriminate.
    + destruct l as [|x l]; simpl in H.
      * discriminate.
      * injection H as _ H. eapply IH. eassumption.
Qed.

Lemma strip_slash_no_trailing_slash (pattern : string) :
  Py.endswith (Py.strip_slash pattern) "/" = false.
Proof.
  destruct (Py.endswith (Py.strip_slash pattern) "/") eqn:E; [|reflexivity].
  apply endswith_spec in E. destruct E as [l E].
  unfold Py.strip_slash, Py.strip_with in E.
  apply rstrip_last in E. discriminate.
Qed.

End StringFacts.

(** ** The path filter *)

Lemma starts_with_pattern_occurs (path_str pattern : string) :
  starts_with path_str pattern -> occurs_in (Py.strip_slash pattern) path_str.
Proof.
  intros [rest ->].
  destruct (strip_with_split (Ascii.eqb Py.slash) pattern) as [l [r H]].
  exists l, (r ++ rest)%string. fold (Py.strip_slash pattern) in H.
  rewrite H at 1. rewrite !append_assoc. reflexivity.
Qed.

Lemma match_patterns_spec (path_str name : string) (pats : list string) :
  match_patterns path_str name pats = true <->
  exists pattern, In pattern pats /\ pattern_excludes path_str name pattern.
Proof.
  induction pats as [|p pats IH]; simpl.
  - split; [discriminate | intros [q [[] _]]].
  - rewrite strip_slash_no_trailing_slash. simpl.
    destruct (Py.contains (Py.strip_slash p) path_str) eqn:Ec; simpl.
    + split; [intros _ | reflexivity].
      exists p. split; [now left|]. left. now apply contains_spec.
    + destruct (String.eqb name (Py.strip_slash p)) eqn:En.
      * split; [intros _ | reflexivity].
        exists p. split; [now left|]. right; left. now apply String.eqb_eq.
      * rewrite IH. split.
        -- intros [q [Hin Hq]]. exists q. split; [now right | assumption].
        -- intros [q [[<- | Hin] Hq]]; [|exists q; now split].
           exfalso. destruct Hq as [Ho | [Hn | [_ Hs]]].
           ++ apply contains_spec in Ho. congruence.
           ++ apply String.eqb_neq in En. contradiction.
           ++ apply starts_with_pattern_occurs, contains_spec in Hs. congruence.
Qed.

Lemma pattern_excludes_trimmed_iff (path_str name pattern : string) :
  pattern_excludes path_str name pattern
  <-> pattern_excludes_trimmed path_str name pattern.
Proof.
  unfold pattern_excludes, pattern_excludes_trimmed. split.
  - intros [H | [H | [_ H]]]; [now left | now (right; left) |].
    left. now apply starts_with_pattern_occurs.
  - intros [H | [H | [H _]]]; [now left | now (right; left) |].
    exfalso. apply endswith_spec in H.
    rewrite strip_slash_no_trailing_slash in H. discriminate.
Qed.

Lemma is_ignored_spec (rel pats : list string) :
  is_ignored rel pats = true <->
  In (Path.name rel) EXCLUDED_FILES
  \/ match_patterns (Path.path_str rel) (Path.name rel) pats = true.
Proof.
  unfold is_ignored.
  destruct (Py.mem (Path.name rel) EXCLUDED_FILES) eqn:E.
  - split; [intros _; left; now apply mem_spec | reflexivity].
  - split; [now right | intros [H | H]; [|assumption]].
    apply mem_spec in H. congruence.
Qed.

(** C1. A path whose final name component is one of [.env], [.env.local],
    [.env.production], [.env.development] is excluded by [is_ignored]
    whatever the ignore rule set is, the empty one included: the test on the
    name comes first and does not read the patterns, and the scanner adds
    nothing for a file of that name. *)
Theorem C1_sensitive_names_always_excluded (rel : list string) :
  In (Path.name rel) EXCLUDED_FILES ->
  forall gitignore_patterns : list string,
    is_ignored rel gitignore_patterns = true
    /\ is_ignored rel [] = true
    /\ forall root_rel file_name read_text files_data,
         rel = root_rel ++ [file_name] ->
         scan_file gitignore_patterns root_rel file_name read_text files_data
         = Ok files_data.
Proof.
  intros Hin pats.
  assert (H : forall ps, is_ignored rel ps = true).
  { intros ps. apply is_ignored_spec. now left. }
  repeat split; try apply H.
  intros root_rel file_name read_text files_data ->.
  unfold scan_file. now rewrite H.
Qed.

Lemma C1_witness :
  In (Path.name ["config"; ".env.local"]) EXCLUDED_FILES
  /\ is_ignored ["config"; ".env.local"] ["!.env.local"] = true.
Proof.
  split.
  - simpl. tauto.
  - refine (proj1 (C1_sensitive_names_always_excluded
                     ["config"; ".env.local"] _ ["!.env.local"])).
    simpl. tauto.
Defined.

(** C3. The ignore-pattern rule of the path filter holds exactly when some
    pattern of the set, trimmed of leading and trailing slashes, occurs in
    the normalized relative path, or equals the final name, or the pattern
    ends with a slash and the relative path starts with it (read on the
    pattern as written or on the trimmed pattern, the rule is the same).
    With the ignore line [build/], every path starting with [build/] is
    excluded, and so is [build-tools/readme.md]. *)
Theorem C3_ignore_pattern_rule (rel : list string) (gitignore_patterns : list string) :
  (match_patterns (Path.path_str rel) (Path.name rel) gitignore_patterns = true
   <-> exists pattern, In pattern gitignore_patterns
        /\ pattern_excludes (Path.path_str rel) (Path.name rel) pattern)
  /\ (match_patterns (Path.path_str rel) (Path.name rel) gitignore_patterns = true
      <-> exists pattern, In pattern gitignore_patterns
           /\ pattern_excludes_trimmed (Path.path_str rel) (Path.name rel) pattern)
  /\ (In "build/" gitignore_patterns ->
      starts_with (Path.path_str rel) "build/" ->
      is_ignored rel gitignore_patterns = true)
  /\ is_ignored ["build-tools"; "readme.md"] ["build/"] = true.
Proof.
  split; [apply match_patterns_spec|].
  split.
  { rewrite match_patterns_spec. split; intros [q [Hin Hq]]; exists q;
      (split; [assumption | now apply pattern_excludes_trimmed_iff]). }
  split; [|reflexivity].
  intros Hin Hs. apply is_ignored_spec. right. apply match_patterns_spec.
  exists "build/". split; [assumption|].
  right; right. split; [exists "build"; reflexivity | assumption].
Qed.

(** ** The tree scanner *)

Lemma scan_file_spec pats root_rel file_name read_text files_data :
  scan_file pats root_rel file_name read_text files_data
  = Ok (files_data ++ map record_of (keeps_file pats root_rel (file_name, read_text))).
Proof.
  unfold scan_file, keeps_file. simpl.
  destruct (is_ignored (root_rel ++ [file_name]) pats); simpl.
  - destruct read_text; now rewrite app_nil_r.
  - destruct (extension_ok file_name); simpl.
    + destruct read_text; simpl; [reflexivity | now rewrite app_nil_r].
    + destruct read_text; now rewrite app_nil_r.
Qed.

Lemma scan_files_spec pats root_rel files files_data :
  scan_files pats root_rel files files_data
  = Ok (files_data ++ map record_of (flat_map (keeps_file pats root_rel) files)).
Proof.
  revert files_data; induction files as [|[f r] files IH]; intros fd; simpl.
  - now rewrite app_nil_r.
  - rewrite scan_file_spec. simpl. rewrite IH, map_app, app_assoc. reflexivity.
Qed.

Lemma walk_spec pats (t : tree) :
  forall root_rel files_data,
    walk pats t root_rel files_data
    = Ok (files_data ++ map record_of (kept_files pats t root_rel)).
Proof.
  induction t as [files dirs IH] using tree_ind'. intros root_rel fd.
  simpl. rewrite scan_files_spec. simpl.
  rewrite map_app, app_assoc.
  generalize (fd ++ map record_of (flat_map (keeps_file pats root_rel) files)).
  induction IH as [|[d sub] dirs Hsub _ IHdirs]; intros acc; simpl.
  - now rewrite app_nil_r.
  - destruct (is_ignored (root_rel ++ [d]) pats).
    + apply IHdirs.
    + simpl in Hsub. rewrite Hsub. simpl. rewrite IHdirs, map_app, app_assoc.
      reflexivity.
Qed.

Lemma scan_with_spec pats (t : tree) :
  scan_with pats t = Ok (map record_of (kept_files pats t [])).
Proof. unfold scan_with. now rewrite walk_spec. Qed.


(** Where a kept file comes from. *)
Lemma kept_files_sound pats (t : tree) :
  forall root_rel rel text,
    In (rel, text) (kept_files pats t root_rel) ->
    exists parent file_name sub,
      rel = root_rel ++ parent ++ [file_name]
      /\ dir_at t parent sub
      /\ In (file_name, Ok text) (tree_files sub)
      /\ is_ignored rel pats = false
      /\ extension_ok file_name = true
      /\ forall p, on_path_to p parent -> is_ignored (root_rel ++ p) pats = false.
Proof.
  induction t as [files dirs IH] using tree_ind'. intros root_rel rel text Hin.
  simpl in Hin. apply in_app_or in Hin. destruct Hin as [Hin | Hin].
  - apply in_flat_map in Hin. destruct Hin as [[f r] [Hf Hk]].
    unfold keeps_file in Hk. simpl in Hk. destruct r as [c|e]; [|destruct Hk].
    destruct (is_ignored (root_rel ++ [f]) pats) eqn:Ei; simpl in Hk; [destruct Hk|].
    destruct (extension_ok f) eqn:Ee; [|destruct Hk].
    destruct Hk as [Hk | []]. injection Hk as <- <-.
    exists [], f, (Dir files dirs). simpl.
    split; [reflexivity|]. split; [constructor|]. split; [assumption|].
    split; [assumption|]. split; [assumption|].
    intros p [Hp [rest Hr]]. destruct p; [congruence | discriminate].
  - apply in_flat_map in Hin. destruct Hin as [[d sub] [Hd Hk]].
    destruct (is_ignored (root_rel ++ [d]) pats) eqn:Ei; [destruct Hk|].
    rewrite Forall_forall in IH. specialize (IH _ Hd _ _ _ Hk).
    destruct IH as [parent [f [sub' [-> [Hdir [Hf [Hi [He Hanc]]]]]]]].
    exists (d :: parent), f, sub'.
    split; [simpl; now rewrite <- app_assoc|].
    split; [econstructor; eassumption|].
    split; [assumption|].
    split; [assumption|].
    split; [assumption|].
    intros p [Hp [rest Hr]]. destruct p as [|x p]; [congruence|].
    simpl in Hr. injection Hr as -> Hr.
    destruct p as [|y p].
    + assumption.
    + change (x :: y :: p) with ([x] ++ (y :: p)). rewrite app_assoc.
      apply Hanc. split; [discriminate | eauto].
Qed.

(** A readable file that passes both tests, below directories that all
    pass [is_ignored], is kept. *)
Lemma kept_files_complete pats (t : tree) :
  forall root_rel parent file_name sub text,
    dir_at t parent sub ->
    In (file_name, Ok text) (tree_files sub) ->
    is_ignored (root_rel ++ parent ++ [file_name]) pats = false ->
    extension_ok file_name = true ->
    (forall p, on_path_to p parent -> is_ignored (root_rel ++ p) pats = false) ->
    In (root_rel ++ parent ++ [file_name], text) (kept_files pats t root_rel).
Proof.
  intros root_rel parent file_name sub text Hdir. revert root_rel.
  induction Hdir as [t | files dirs d sub' rel t' Hd Hdir IH];
    intros root_rel Hf Hi He Hanc.
  - destruct t as [files dirs]. simpl in *. apply in_or_app. left.
    apply in_flat_map. exists (file_name, Ok text). split; [assumption|].
    unfold keeps_file. simpl. rewrite Hi, He. now left.
  - simpl. apply in_or_app. right.
    apply in_flat_map. exists (d, sub'). split; [assumption|].
    assert (Hd' : is_ignored (root_rel ++ [d]) pats = false).
    { apply Hanc. split; [discriminate | exists rel; reflexivity]. }
    rewrite Hd'.
    assert (Hassoc : forall l, root_rel ++ d :: l = (root_rel ++ [d]) ++ l).
    { intros l. now rewrite <- app_assoc. }
    simpl. simpl in Hi. rewrite Hassoc. rewrite Hassoc in Hi.
    apply IH; auto.
    intros p [Hp [rest Hr]]. rewrite <- Hassoc. apply Hanc.
    split; [discriminate | exists rest; simpl; congruence].
Qed.

(** Files that the loop body skips can be taken out of the tree without
    changing what the scan returns. *)
Lemma kept_files_filter pats (keep : string * result string -> bool) :
  (forall root_rel f, keep f = false -> keeps_file pats root_rel f = []) ->
  forall (t : tree) root_rel,
    kept_files pats (filter_files keep t) root_rel = kept_files pats t root_rel.
Proof.
  intros Hskip t. induction t as [files dirs IH] using tree_ind'.
  intros root_rel. simpl. f_equal.
  - induction files as [|f files IHf]; simpl; [reflexivity|].
    destruct (keep f) eqn:Ek; simpl.
    + now rewrite IHf.
    + now rewrite (Hskip root_rel f Ek).
  - induction IH as [|[d sub] dirs Hsub _ IHdirs]; simpl; [reflexivity|].
    simpl in Hsub. now rewrite Hsub, IHdirs.
Qed.


Lemma keeps_file_extension pats root_rel f :
  has_text_extension f = false -> keeps_file pats root_rel f = [].
Proof.
  unfold has_text_extension, keeps_file. intros ->.
  rewrite andb_false_r. now destruct (snd f).
Qed.

(** C4. A file whose extension, lower-cased, is not in [TEXT_EXTENSIONS] and
    whose name, lower-cased, is neither [dockerfile] nor [makefile] is
    skipped by the loop body whatever it contains and whatever the rule set
    is, so such files contribute no record: the scan of a tree returns what
    the scan of the tree without them returns.  The test is on files only: a
    directory of such a name is still walked. *)
Theorem C4_extension_allowlist (file_name : string) :
  Py.mem (Py.lower (Path.suffix file_name)) TEXT_EXTENSIONS = false ->
  Py.mem (Py.lower file_name) EXTENSIONLESS_NAMES = false ->
  (forall pats root_rel read_text files_data,
      scan_file pats root_rel file_name read_text files_data = Ok files_data)
  /\ (forall pats t,
        scan_with pats (filter_files has_text_extension t) = scan_with pats t)
  /\ (forall pats t rel text,
        In (rel, text) (kept_files pats t []) -> Path.name rel <> file_name)
  /\ scan_with [] (Dir [] [("assets.bin", Dir [("a.py", Ok "x")] [])])
     = Ok [mkFileRecord "assets.bin/a.py" "x"].
Proof.
  intros Hext Hname.
  assert (Hno : extension_ok file_name = false).
  { unfold extension_ok. now rewrite Hext, Hname. }
  split; [|split; [|split]].
  - intros pats root_rel read_text fd. unfold scan_file.
    rewrite Hno. simpl. now destruct (is_ignored _ _).
  - intros pats t. rewrite !scan_with_spec.
    rewrite (kept_files_filter pats has_text_extension); [reflexivity|].
    intros root_rel f. apply keeps_file_extension.
  - intros pats t rel text Hin Heq.
    apply kept_files_sound in Hin.
    destruct Hin as [parent [f [sub [-> [_ [_ [_ [He _]]]]]]]].
    simpl in Heq. unfold Path.name in Heq. rewrite last_last in Heq.
    congruence.
  - reflexivity.
Qed.

Lemma C4_witness :
  scan_file DEFAULT_IGNORED ["img"] "logo.PNG" (Ok "...") [] = Ok [].
Proof.
  apply (proj1 (C4_extension_allowlist "logo.PNG" eq_refl eq_refl)).
Defined.


(** C10. [EXCLUDED_PATTERNS] takes no part in the filtering: a readable file
    whose name matches one of its patterns is kept, with its whole text,
    whenever its directory is visited, [is_ignored] lets it through and its
    extension is in the allowlist; [api_key.txt] at the root of a tree
    without ignore file is such a file.  When the extension is outside the
    allowlist the loop body skips the file, as it does with any other. *)
Theorem C10_secret_patterns_not_consulted
        (pats : list string) (t : tree) (parent : list string)
        (file_name text : string) :
  matches_excluded_pattern file_name = true ->
  visited pats t parent ->
  file_at t (parent ++ [file_name]) (Ok text) ->
  is_ignored (parent ++ [file_name]) pats = false ->
  (extension_ok file_name = true ->
   exists files_data,
     scan_with pats t = Ok files_data
     /\ In (mkFileRecord (Path.path_str (parent ++ [file_name])) text) files_data)
  /\ (extension_ok file_name = false ->
      forall root_rel read_text files_data,
        scan_file pats root_rel file_name read_text files_data = Ok files_data)
  /\ scan_codebase (Dir [("api_key.txt", Ok "sk-live-0123456789")] [])
     = Ok [mkFileRecord "api_key.txt" "sk-live-0123456789"].
Proof.
  intros _ [_ Hvis] [parent' [f [sub [Heq [Hdir Hf]]]]] Hi.
  apply app_inj_tail in Heq. destruct Heq as [<- <-].
  split; [|split].
  - intros He. exists (map record_of (kept_files pats t [])).
    split; [apply scan_with_spec|].
    apply (in_map record_of _ (parent ++ [file_name], text)).
    apply (kept_files_complete pats t [] parent file_name sub text); auto.
  - intros He root_rel read_text fd. unfold scan_file. rewrite He.
    destruct (is_ignored (root_rel ++ [file_name]) pats); reflexivity.
  - reflexivity.
Qed.

Lemma C10_witness :
  exists files_data,
    scan_with DEFAULT_IGNORED (Dir [("api_key.txt", Ok "sk-live")] [])
    = Ok files_data
    /\ In (mkFileRecord (Path.path_str ([] ++ ["api_key.txt"])) "sk-live") files_data.
Proof.
  refine (proj1 (C10_secret_patterns_not_consulted
                   DEFAULT_IGNORED (Dir [("api_key.txt", Ok "sk-live")] [])
                   [] "api_key.txt" "sk-live" eq_refl _ _ eq_refl) eq_refl).
  - split.
    + exists (Dir [("api_key.txt", Ok "sk-live")] []). constructor.
    + intros p [Hp [rest Hr]]. destruct p; [congruence | discriminate].
  - exists [], "api_key.txt", (Dir [("api_key.txt", Ok "sk-live")] []).
    split; [reflexivity|]. split; [constructor | simpl; auto].
Defined.

(** ** Pruning *)

Lemma kept_files_erase pats (t : tree) :
  forall root_rel,
    kept_files pats (erase_pruned pats t root_rel) root_rel
    = kept_files pats t root_rel.
Proof.
  induction t as [files dirs IH] using tree_ind'. intros root_rel. simpl.
  f_equal.
  induction IH as [|[d sub] dirs Hsub _ IHdirs]; simpl; [reflexivity|].
  rewrite IHdirs. f_equal.
  destruct (is_ignored (root_rel ++ [d]) pats); [reflexivity|].
  apply Hsub.
Qed.

Section PlainNames.

Open Scope string_scope.

Lemma has_char_append c (a b : string) :
  has_char c (a ++ b) = has_char c a || has_char c b.
Proof. induction a; simpl; [reflexivity|]. now rewrite IHa, orb_assoc. Qed.

Lemma replace_char_absent a b (s : string) :
  has_char a s = false -> Py.replace_char a b s = s.
Proof.
  induction s as [|c s IH]; simpl; [reflexivity|].
  intros H. apply orb_false_elim in H. destruct H as [-> H].
  now rewrite IH.
Qed.

Lemma has_char_join c (l : list string) :
  has_char c "/" = false ->
  Forall (fun nm => has_char c nm = false) l ->
  has_char c (Py.join "/" l) = false.
Proof.
  intros Hsep H. induction H as [|x l Hx Hl IH]; [reflexivity|].
  unfold Py.join in *. destruct l as [|y l]; [assumption|].
  change (String.concat "/" (x :: y :: l))
    with (x ++ "/" ++ String.concat "/" (y :: l)).
  now rewrite !has_char_append, Hx, Hsep, IH.
Qed.

Lemma plain_name_spec nm :
  plain_name nm = true <->
  has_char Py.slash nm = false /\ has_char Py.backslash nm = false.
Proof.
  unfold plain_name. rewrite andb_true_iff, !negb_true_iff. tauto.
Qed.

Lemma path_str_plain (rel : list string) :
  rel <> [] -> Forall (fun nm => plain_name nm = true) rel ->
  Path.path_str rel = Py.join "/" rel.
Proof.
  intros Hne H. unfold Path.path_str, Path.str.
  destruct rel as [|x rel]; [congruence|].
  apply replace_char_absent. apply has_char_join; [reflexivity|].
  eapply Forall_impl; [|exact H]. intros nm Hn.
  now apply plain_name_spec in Hn.
Qed.

(** A name without a slash ends at the first slash. *)
Lemma first_slash_unique (x y s1 s2 : string) :
  has_char Py.slash x = false -> has_char Py.slash y = false ->
  x ++ "/" ++ s1 = y ++ "/" ++ s2 -> x = y /\ s1 = s2.
Proof.
  revert y; induction x as [|a x IH]; intros y Hx Hy H.
  - destruct y as [|b y]; simpl in H.
    + injection H as H. now split.
    + injection H as <- _. simpl in Hy. discriminate.
  - destruct y as [|b y]; simpl in H.
    + injection H as -> _. simpl in Hx. discriminate.
    + injection H as -> H. simpl in Hx, Hy.
      apply orb_false_elim in Hx, Hy.
      destruct (IH y (proj2 Hx) (proj2 Hy) H) as [-> ->]. now split.
Qed.

Lemma no_slash_inside (x y s : string) :
  has_char Py.slash y = false -> y <> x ++ "/" ++ s.
Proof.
  intros Hy ->. rewrite !has_char_append in Hy. simpl in Hy.
  rewrite orb_true_r in Hy. discriminate.
Qed.

Lemma join_cons2 (x y : string) (l : list string) :
  Py.join "/" (x :: y :: l) = x ++ "/" ++ Py.join "/" (y :: l).
Proof. reflexivity. Qed.

(** With plain names, a path that begins with the text of [d] and a slash
    lies below [d]. *)
Lemma join_prefix_components (d : list string) :
  d <> [] ->
  Forall (fun nm => has_char Py.slash nm = false) d ->
  forall q,
    Forall (fun nm => has_char Py.slash nm = false) q ->
    starts_with (Py.join "/" q) (Py.join "/" d ++ "/") ->
    exists rest, rest <> [] /\ q = (d ++ rest)%list.
Proof.
  induction d as [|x d IH]; [congruence|]. intros _ Hd q Hq [r Hr].
  inversion Hd as [|? ? Hx Hd']; subst.
  destruct q as [|y q].
  { exfalso. apply (f_equal String.length) in Hr.
    rewrite !append_length in Hr. simpl in Hr. lia. }
  inversion Hq as [|? ? Hy Hq']; subst.
  destruct d as [|z d].
  - (* d = [x] *)
    change (Py.join "/" [x]) with x in Hr.
    destruct q as [|y' q].
    + exfalso. change (Py.join "/" [y]) with y in Hr.
      rewrite append_assoc in Hr. now apply no_slash_inside in Hr.
    + rewrite join_cons2, append_assoc in Hr.
      apply first_slash_unique in Hr; auto. destruct Hr as [-> _].
      exists (y' :: q). split; [discriminate | reflexivity].
  - rewrite join_cons2, !append_assoc in Hr.
    destruct q as [|y' q].
    + exfalso. change (Py.join "/" [y]) with y in Hr.
      now apply no_slash_inside in Hr.
    + rewrite join_cons2 in Hr.
      apply first_slash_unique in Hr; auto. destruct Hr as [-> Hr].
      destruct (IH ltac:(discriminate) Hd' (y' :: q) Hq') as [rest [Hne Hrest]].
      { exists r. now rewrite append_assoc. }
      exists rest. split; [assumption|]. simpl. now rewrite Hrest.
Qed.

Lemma dir_at_plain (t : tree) rel sub :
  dir_at t rel sub -> plain_names t = true ->
  Forall (fun nm => plain_name nm = true) rel /\ plain_names sub = true.
Proof.
  induction 1 as [t | files dirs d sub' rel t' Hd Hdir IH]; intros Hp.
  - now split.
  - simpl in Hp. apply andb_true_iff in Hp. destruct Hp as [_ Hp].
    rewrite forallb_forall in Hp. specialize (Hp _ Hd). simpl in Hp.
    apply andb_true_iff in Hp. destruct Hp as [Hd1 Hd2].
    destruct (IH Hd2) as [Hrel Hsub]. split; [|assumption].
    now constructor.
Qed.

Lemma file_plain (t : tree) file_name r :
  plain_names t = true -> In (file_name, r) (tree_files t) ->
  plain_name file_name = true.
Proof.
  destruct t as [files dirs]. simpl. intros Hp Hin.
  apply andb_true_iff in Hp. destruct Hp as [Hp _].
  rewrite forallb_forall in Hp. exact (Hp _ Hin).
Qed.

End PlainNames.

Lemma pruned_below_is_visible (t : tree) (d parent : list string) (file_name : string) :
  plain_names t = true ->
  (exists sub, dir_at t d sub) -> d <> [] ->
  (exists sub, dir_at t parent sub /\ exists r, In (file_name, r) (tree_files sub)) ->
  starts_with (Path.path_str (parent ++ [file_name])) (Path.path_str d ++ "/") ->
  on_path_to d parent.
Proof.
  intros Hplain [subd Hd] Hne [sub [Hparent [r Hf]]] Hs.
  destruct (dir_at_plain _ _ _ Hd Hplain) as [Hpd _].
  destruct (dir_at_plain _ _ _ Hparent Hplain) as [Hpp Hps].
  pose proof (file_plain _ _ _ Hps Hf) as Hpf.
  assert (Hprel : Forall (fun nm => plain_name nm = true) (parent ++ [file_name])).
  { apply Forall_app. split; [assumption | now constructor]. }
  rewrite (path_str_plain d) in Hs by assumption.
  rewrite (path_str_plain (parent ++ [file_name])) in Hs
    by (try assumption; now destruct parent).
  assert (Hslash : forall l, Forall (fun nm => plain_name nm = true) l ->
                             Forall (fun nm => has_char Py.slash nm = false) l).
  { intros l H. eapply Forall_impl; [|exact H].
    intros nm Hn. now apply plain_name_spec in Hn. }
  destruct (join_prefix_components d Hne (Hslash _ Hpd) _ (Hslash _ Hprel) Hs)
    as [rest [Hrest Heq]].
  split; [assumption|].
  destruct (exists_last Hrest) as [rest' [f' ->]].
  rewrite app_assoc in Heq. apply app_inj_tail in Heq.
  exists rest'. tauto.
Qed.

(** C2, as the code has it.  Under every rule set the scan returns a list in
    which each record is the text of a file of the tree that passes
    [is_ignored] and the extension test and all of whose ancestor
    directories pass [is_ignored]; what lies below a filtered-out directory
    is not read (the tree emptied below such directories scans to the same
    list); and, when no name of the tree contains a backslash, no record's
    path begins with the relative path of a pruned directory followed by a
    slash. *)
Theorem C2_pruned_subtrees_excluded (pats : list string) (t : tree) :
  exists files_data,
    scan_with pats t = Ok files_data
    /\ (forall r, In r files_data ->
          exists rel text,
            r = mkFileRecord (Path.path_str rel) text
            /\ file_at t rel (Ok text)
            /\ extension_ok (Path.name rel) = true
            /\ forall p, on_path_to p rel -> is_ignored p pats = false)
    /\ scan_with pats (erase_pruned pats t []) = Ok files_data
    /\ (plain_names t = true ->
        forall d, pruned pats t d ->
        forall r, In r files_data ->
                  ~ starts_with (path r) (Path.path_str d ++ "/")).
Proof.
  exists (map record_of (kept_files pats t [])).
  split; [apply scan_with_spec|].
  assert (Hsound : forall r, In r (map record_of (kept_files pats t [])) ->
            exists parent file_name sub text,
              r = mkFileRecord (Path.path_str (parent ++ [file_name])) text
              /\ dir_at t parent sub
              /\ In (file_name, Ok text) (tree_files sub)
              /\ is_ignored (parent ++ [file_name]) pats = false
              /\ extension_ok file_name = true
              /\ forall p, on_path_to p parent -> is_ignored p pats = false).
  { intros r Hr. apply in_map_iff in Hr. destruct Hr as [[rel text] [<- Hin]].
    apply kept_files_sound in Hin.
    destruct Hin as [parent [f [sub [Heq [Hdir [Hf [Hi [He Hanc]]]]]]]].
    simpl in Heq. subst rel. exists parent, f, sub, text. tauto. }
  split; [|split].
  - intros r Hr. destruct (Hsound r Hr)
      as [parent [f [sub [text [-> [Hdir [Hf [Hi [He Hanc]]]]]]]]].
    exists (parent ++ [f]), text. split; [reflexivity|].
    split; [exists parent, f, sub; tauto|].
    split; [unfold Path.name; now rewrite last_last|].
    intros p [Hp [rest Hrest]].
    destruct rest as [|x rest] using rev_ind.
    + rewrite app_nil_r in Hrest. now subst p.
    + rewrite app_assoc in Hrest. apply app_inj_tail in Hrest.
      apply Hanc. split; [assumption | exists rest; tauto].
  - rewrite scan_with_spec. now rewrite kept_files_erase.
  - intros Hplain d [dparent [name [Hd [_ [Hdir Hign]]]]] r Hr Hs.
    destruct (Hsound r Hr)
      as [parent [f [sub [text [-> [Hpar [Hf [Hi [He Hanc]]]]]]]]].
    simpl in Hs.
    assert (Hon : on_path_to d parent).
    { apply (pruned_below_is_visible t d parent f); auto.
      - subst d. now destruct dparent.
      - exists sub. split; [assumption | eauto]. }
    rewrite (Hanc d Hon) in Hign. discriminate.
Qed.

Lemma C2_witness :
  ~ starts_with (path (mkFileRecord "app.py" "x"))
                (Path.path_str ["node_modules"] ++ "/").
Proof.
  pose (t := Dir [("app.py", Ok "x")] [("node_modules", Dir [("x.js", Ok "y")] [])]).
  destruct (C2_pruned_subtrees_excluded DEFAULT_IGNORED t)
    as [files_data [Hscan [_ [_ Hpruned]]]].
  injection Hscan as <-.
  apply (Hpruned eq_refl ["node_modules"]); [|now left].
  exists [], "node_modules". split; [reflexivity|]. split; [|split].
  - split; [eexists; constructor|].
    intros p [Hp [rest Hrest]]. destruct p; [congruence | discriminate].
  - eexists. econstructor; [now left | constructor].
  - reflexivity.
Defined.

(** The claim C2 read on all trees fails on [backslash_tree]: [.env] is a
    pruned directory, and the file [.env\foo.py] next to it is recorded
    under the path [.env/foo.py]. *)
Lemma C2_counterexample :
  scan_codebase backslash_tree = Ok [mkFileRecord ".env/foo.py" "print(1)"]
  /\ pruned (rules_of backslash_tree) backslash_tree [".env"]
  /\ starts_with (path (mkFileRecord ".env/foo.py" "print(1)"))
                 (Path.path_str [".env"] ++ "/").
Proof.
  split; [reflexivity|]. split.
  - exists [], ".env". split; [reflexivity|]. split; [|split].
    + split; [eexists; constructor|].
      intros p [Hp [rest Hrest]]. destruct p; [congruence | discriminate].
    + eexists. econstructor; [now left | constructor].
    + reflexivity.
  - exists "foo.py". reflexivity.
Qed.

(** ** The context assembler *)

Section ContextFacts.

Open Scope string_scope.

Lemma split_nl_nonempty (s : string) : Py.split_nl s <> [].
Proof.
  induction s as [|c s IH]; simpl; [discriminate|].
  destruct (Ascii.eqb c Py.LF); [discriminate|].
  destruct (Py.split_nl s); discriminate.
Qed.

Lemma split_nl_app (a b : string) :
  Py.split_nl (a ++ Py.nl ++ b) = (Py.split_nl a ++ Py.split_nl b)%list.
Proof.
  induction a as [|c a IH]; simpl.
  - reflexivity.
  - destruct (Ascii.eqb c Py.LF).
    + simpl in IH. now rewrite IH.
    + simpl in IH. rewrite IH.
      pose proof (split_nl_nonempty a) as Hne.
      destruct (Py.split_nl a); [congruence | reflexivity].
Qed.

Lemma split_nl_one_line (s : string) :
  has_char Py.LF s = false -> Py.split_nl s = [s].
Proof.
  induction s as [|c s IH]; simpl; [reflexivity|].
  intros H. apply orb_false_elim in H. destruct H as [-> H].
  now rewrite (IH H).
Qed.

Lemma join_split_nl (s : string) : Py.join Py.nl (Py.split_nl s) = s.
Proof.
  induction s as [|c s IH]; simpl; [reflexivity|].
  pose proof (split_nl_nonempty s) as Hne.
  destruct (Ascii.eqb c Py.LF) eqn:Ec.
  - apply Ascii.eqb_eq in Ec. subst c.
    destruct (Py.split_nl s) as [|h t]; [congruence|].
    unfold Py.join in *. simpl in *. now rewrite IH.
  - destruct (Py.split_nl s) as [|h t]; [congruence|].
    unfold Py.join in *. simpl in *. destruct t; simpl in *; congruence.
Qed.

Lemma build_context_cons (r r' : FileRecord) (l : list FileRecord) :
  build_context (r :: r' :: l)
  = context_part r ++ Py.nl ++ build_context (r' :: l).
Proof. reflexivity. Qed.

Lemma split_nl_context_part (r : FileRecord) :
  has_char Py.LF (path r) = false ->
  Py.split_nl (context_part r) = context_lines r.
Proof.
  intros Hp. unfold context_part, context_lines.
  replace ("--- FILE: " ++ path r ++ " ---" ++ Py.nl ++ content r ++ Py.nl)
    with (("--- FILE: " ++ path r ++ " ---") ++ Py.nl ++ (content r ++ Py.nl ++ ""))
    by (now rewrite !append_assoc).
  rewrite !split_nl_app. rewrite split_nl_one_line; [reflexivity|].
  rewrite !has_char_append, Hp. reflexivity.
Qed.

Lemma split_nl_build_context (l : list FileRecord) :
  l <> [] ->
  Forall (fun r => has_char Py.LF (path r) = false) l ->
  Py.split_nl (build_context l) = flat_map context_lines l.
Proof.
  intros Hne H. induction H as [|r l Hr Hl IH]; [congruence|].
  destruct l as [|r' l].
  - change (build_context [r]) with (context_part r).
    rewrite split_nl_context_part by assumption. simpl. now rewrite app_nil_r.
  - rewrite build_context_cons, split_nl_app, split_nl_context_part by assumption.
    rewrite IH by discriminate. reflexivity.
Qed.

Lemma substring_append_left (a b : string) :
  String.substring 0 (String.length a) (a ++ b) = a.
Proof.
  induction a as [|c a IH]; simpl.
  - now destruct b.
  - now rewrite IH.
Qed.

Lemma delimiter_of_record (p : string) :
  is_delimiter (DELIM_PREFIX ++ p ++ DELIM_SUFFIX) = true
  /\ delimiter_path (DELIM_PREFIX ++ p ++ DELIM_SUFFIX) = p.
Proof.
  split.
  - unfold is_delimiter. rewrite !andb_true_iff. repeat split.
    + apply prefix_spec. eexists. reflexivity.
    + apply endswith_spec. exists (DELIM_PREFIX ++ p).
      now rewrite append_assoc.
    + apply Nat.leb_le. rewrite !append_length. lia.
  - unfold delimiter_path, Py.drop_last. simpl Py.slice_from.
    rewrite append_length. simpl String.length.
    replace (String.length p + 4 - 4)%nat with (String.length p) by lia.
    apply substring_append_left.
Qed.

Lemma take_body_app (body rest : list string) :
  Forall (fun l => is_delimiter l = false) body ->
  opens_with_delimiter rest ->
  take_body (body ++ rest) = body.
Proof.
  intros Hb Hr. induction Hb as [|l body Hl Hb IH]; cbn [app take_body].
  - destruct rest as [|l rest]; [reflexivity|]. cbn [take_body].
    unfold opens_with_delimiter in Hr. now rewrite Hr.
  - now rewrite Hl, IH.
Qed.

Lemma split_lines_skip (body rest : list string) :
  Forall (fun l => is_delimiter l = false) body ->
  split_lines_on_delimiter (body ++ rest) = split_lines_on_delimiter rest.
Proof.
  intros Hb. induction Hb as [|l body Hl Hb IH];
    cbn [app split_lines_on_delimiter]; [reflexivity|].
  now rewrite Hl.
Qed.

Lemma flat_map_context_lines_opens (l : list FileRecord) :
  opens_with_delimiter (flat_map context_lines l).
Proof.
  destruct l as [|r l]; simpl; [exact I|].
  apply (proj1 (delimiter_of_record (path r))).
Qed.

Lemma split_lines_context_lines (l : list FileRecord) :
  Forall (fun r => well_delimited r = true) l ->
  split_lines_on_delimiter (flat_map context_lines l) = l.
Proof.
  intros H. induction H as [|r l Hr Hl IH]; [reflexivity|].
  apply andb_true_iff in Hr. destruct Hr as [_ Hbody].
  assert (Hnd : Forall (fun l => is_delimiter l = false)
                       (Py.split_nl (content r) ++ [""])).
  { apply Forall_app. split; [|now repeat constructor].
    apply Forall_forall. intros x Hx.
    rewrite forallb_forall in Hbody. specialize (Hbody x Hx).
    now apply negb_true_iff in Hbody. }
  cbn [flat_map]. unfold context_lines at 1.
  cbn [app split_lines_on_delimiter].
  destruct (delimiter_of_record (path r)) as [-> ->].
  rewrite <- app_assoc, (app_assoc (Py.split_nl (content r)) [""]).
  rewrite take_body_app, split_lines_skip, IH;
    auto using flat_map_context_lines_opens.
  rewrite removelast_last, join_split_nl. now destruct r.
Qed.

End ContextFacts.

Lemma build_context_app (l1 l2 : list FileRecord) :
  l1 <> [] -> l2 <> [] ->
  build_context (l1 ++ l2)
  = (build_context l1 ++ Py.nl ++ build_context l2)%string.
Proof.
  intros H1 H2. induction l1 as [|r l1 IH]; [congruence|].
  destruct l1 as [|r' l1].
  - destruct l2 as [|r2 l2]; [congruence | reflexivity].
  - change ((r :: r' :: l1) ++ l2) with (r :: r' :: (l1 ++ l2)).
    rewrite !build_context_cons.
    change (r' :: l1 ++ l2) with ((r' :: l1) ++ l2).
    rewrite IH by discriminate. now rewrite !append_assoc.
Qed.

Lemma build_context_contains (l : list FileRecord) (r : FileRecord) :
  In r l -> occurs_in (context_part r) (build_context l).
Proof.
  induction l as [|r0 l IH]; [intros []|].
  intros [-> | Hin].
  - destruct l as [|r' l].
    + exists ""%string, ""%string. simpl. now rewrite append_nil_r.
    + exists ""%string, (Py.nl ++ build_context (r' :: l))%string.
      now rewrite build_context_cons.
  - destruct l as [|r' l]; [destruct Hin|].
    destruct (IH Hin) as [a [b Hab]].
    exists (context_part r0 ++ Py.nl ++ a)%string, b.
    rewrite build_context_cons, Hab. now rewrite !append_assoc.
Qed.

(** C6, as the code has it.  The context is the blocks of the records,
    each a delimiter line with the path, the whole text and a line feed,
    joined by line feeds in the order of the scan result: the context of a
    concatenation is the two contexts in that order, and the block of every
    record occurs in it whole.  Cutting the context at the delimiter lines
    gives the scan result back when no path contains a line feed and no line
    of a text is itself a delimiter line. *)
Theorem C6_context_assembly (files_data : list FileRecord) :
  build_context files_data = Py.join Py.nl (map context_part files_data)
  /\ (forall l1 l2, l1 <> [] -> l2 <> [] -> files_data = l1 ++ l2 ->
        build_context files_data
        = (build_context l1 ++ Py.nl ++ build_context l2)%string)
  /\ (forall r, In r files_data ->
        occurs_in (context_part r) (build_context files_data))
  /\ (forallb well_delimited files_data = true ->
      split_context (build_context files_data) = files_data).
Proof.
  split; [reflexivity|]. split; [|split].
  - intros l1 l2 H1 H2 ->. now apply build_context_app.
  - intros r. apply build_context_contains.
  - intros Hwd. rewrite forallb_forall in Hwd.
    assert (Hall : Forall (fun r => well_delimited r = true) files_data)
      by now apply Forall_forall.
    unfold split_context.
    destruct files_data as [|r l] eqn:E; [reflexivity|]. rewrite <- E in *.
    rewrite split_nl_build_context.
    + now apply split_lines_context_lines.
    + subst. discriminate.
    + eapply Forall_impl; [|exact Hall]. intros x Hx.
      apply andb_true_iff in Hx. destruct Hx as [Hx _].
      now apply negb_true_iff in Hx.
Qed.

Lemma C6_witness :
  split_context (build_context
    [mkFileRecord "src/app.py" ("import os" ++ Py.nl ++ Py.nl ++ "print(os.name)" ++ Py.nl)%string;
     mkFileRecord "README.md" "--- notes ---";
     mkFileRecord "src/app.py" ""])
  = [mkFileRecord "src/app.py" ("import os" ++ Py.nl ++ Py.nl ++ "print(os.name)" ++ Py.nl)%string;
     mkFileRecord "README.md" "--- notes ---";
     mkFileRecord "src/app.py" ""].
Proof.
  apply (proj2 (proj2 (proj2 (C6_context_assembly _)))). reflexivity.
Defined.

(** The claim C6 read on all scan results fails: the one record of
    [embedded_delimiter] and the two records of [two_records] assemble to
    the same context, so nothing computed from the context returns both. *)
Lemma C6_counterexample :
  embedded_delimiter <> two_records
  /\ build_context embedded_delimiter = build_context two_records
  /\ split_context (build_context embedded_delimiter) = two_records
  /\ ~ exists recover : string -> list FileRecord,
         forall files_data, recover (build_context files_data) = files_data.
Proof.
  assert (Hne : embedded_delimiter <> two_records) by discriminate.
  assert (Heq : build_context embedded_delimiter = build_context two_records)
    by reflexivity.
  split; [exact Hne|]. split; [exact Heq|]. split; [reflexivity|].
  intros [recover H]. apply Hne.
  rewrite <- (H embedded_delimiter), Heq. apply H.
Qed.

(** ** The credential resolver *)

Lemma get_api_key_spec (script_dir : location) (w : world) :
  get_api_key script_dir w =
  let env' := if truthy_opt (environ w) then environ w
              else load_env_loop 6 script_dir (environ w) in
  if truthy_opt env'
  then (Returns (match env' with Some k => k | None => ""%string end),
        mkWorld env' (stdout w) (requests w) (written w))
  else (SysExit 1,
        mkWorld env' (stdout w ++ [MsgKeyNotSet]) (requests w) (written w)).
Proof.
  unfold get_api_key, bind, environ_get, load_env_file, ret, print, sys_exit.
  destruct w as [env out reqs wr]. cbn -[load_env_loop].
  destruct (truthy_opt env) eqn:E; cbn -[load_env_loop].
  - rewrite E. destruct env as [k|]; [|discriminate]. simpl in E. now rewrite E.
  - generalize (load_env_loop 6 script_dir env). intros [k|]; cbn; [|reflexivity].
    now destruct (Py.truthy k).
Qed.

Lemma get_api_key_returns (script_dir : location) (w w1 : world) (k : string) :
  get_api_key script_dir w = (Returns k, w1) ->
  Py.truthy k = true
  /\ environ w1 = Some k
  /\ stdout w1 = stdout w /\ requests w1 = requests w /\ written w1 = written w.
Proof.
  rewrite get_api_key_spec. cbv zeta.
  destruct (truthy_opt _) eqn:E; [|discriminate].
  intros H. injection H as <- <-. simpl.
  destruct (if truthy_opt (environ w) then _ else _) as [k|]; [|discriminate].
  simpl in E. auto.
Qed.

Lemma get_api_key_exits (script_dir : location) (w w1 : world) (c : Z) :
  get_api_key script_dir w = (SysExit c, w1) ->
  c = 1%Z /\ stdout w1 = stdout w ++ [MsgKeyNotSet]
  /\ requests w1 = requests w /\ written w1 = written w.
Proof.
  rewrite get_api_key_spec. cbv zeta.
  destruct (truthy_opt _) eqn:E; [discriminate|].
  intros H. injection H as <- <-. simpl. auto.
Qed.

(** ** The generation orchestrator *)

Section Orchestrator.

Variable genai_Client : string -> list request -> request -> result (option string).
Variables api_key contents : string.

Let client := genai_Client api_key.
Let req (m : string) := mkRequest m contents.

Lemma try_models_cons (m : string) (rest : list string)
      (last_exception : option exn) (w : world) :
  try_models genai_Client api_key contents (m :: rest) last_exception w =
  let sent := requests w ++ [req m] in
  let out := stdout w ++ [MsgAttempting m] in
  match client (requests w) (req m) with
  | Raise e =>
      try_models genai_Client api_key contents rest (Some e)
        (mkWorld (environ w) (out ++ [MsgModelFailed m e]) sent (written w))
  | Ok text =>
      match succeeded (Ok text) with
      | Some t => (Returns (Py.strip t), mkWorld (environ w) out sent (written w))
      | None =>
          try_models genai_Client api_key contents rest last_exception
            (mkWorld (environ w) (out ++ [MsgNoText m]) sent (written w))
      end
  end.
Proof.
  cbn [try_models]. unfold bind, print, generate_content, ret.
  cbn [environ stdout requests written]. fold client. fold (req m).
  destruct (client (requests w) (req m)) as [[t|]|e]; cbn [succeeded];
    [destruct (Py.truthy t)| |]; reflexivity.
Qed.

Lemma attempt_log_failed (m : string) (text : option string) :
  succeeded (Ok text) = None ->
  attempt_log (m, Ok text) = [MsgAttempting m; MsgNoText m].
Proof. unfold attempt_log. cbn [fst snd]. now intros ->. Qed.

Lemma attempt_log_succeeded (m : string) (text : option string) (t : string) :
  succeeded (Ok text) = Some t -> attempt_log (m, Ok text) = [MsgAttempting m].
Proof. unfold attempt_log. cbn [fst snd]. now intros ->. Qed.

Lemma try_models_spec (models : list string) :
  forall (last_exception : option exn) (w : world),
    try_models genai_Client api_key contents models last_exception w =
    let att := attempts client contents (requests w) models in
    match first_success att with
    | Some t =>
        (Returns (Py.strip t),
         mkWorld (environ w) (stdout w ++ flat_map attempt_log att)
                 (requests w ++ map (fun a => req (fst a)) att) (written w))
    | None =>
        (SysExit 1,
         mkWorld (environ w)
                 (stdout w ++ flat_map attempt_log att
                  ++ failure_report (last_error att last_exception))
                 (requests w ++ map (fun a => req (fst a)) att) (written w))
    end.
Proof.
  induction models as [|m rest IH]; intros le w.
  - destruct w as [env out reqs wr]. cbn.
    rewrite app_nil_r. destruct le; cbn; now rewrite <- ?app_assoc.
  - rewrite try_models_cons. cbv zeta.
    cbn [attempts]. fold (req m).
    destruct (client (requests w) (req m)) as [text|e] eqn:Er.
    + destruct (succeeded (Ok text)) as [t|] eqn:Es.
      * cbn [first_success snd flat_map fst map]. rewrite Es.
        rewrite (attempt_log_succeeded m text t Es).
        now rewrite !app_nil_r.
      * rewrite IH. cbv zeta. cbn [environ stdout requests written].
        set (A := attempts client contents (requests w ++ [req m]) rest).
        cbn [first_success snd flat_map fst map last_error]. rewrite Es.
        rewrite (attempt_log_failed m text Es).
        destruct (first_success A); cbn [app]; rewrite <- !app_assoc; reflexivity.
    + rewrite IH. cbv zeta. cbn [environ stdout requests written].
      set (A := attempts client contents (requests w ++ [req m]) rest).
      cbn [first_success snd succeeded flat_map fst map last_error].
      change (attempt_log (m, Raise e)) with [MsgAttempting m; MsgModelFailed m e].
      destruct (first_success A); cbn [app]; rewrite <- !app_assoc; reflexivity.
Qed.

End Orchestrator.

(** The attempts follow the candidate list, stop at the first success, and
    cover the whole list when there is none. *)
Section Attempts.

Variable client : list request -> request -> result (option string).
Variable contents : string.

Lemma attempts_models (models : list string) :
  forall history,
    let att := attempts client contents history models in
    map fst att = firstn (List.length att) models
    /\ List.length att <= List.length models.
Proof.
  induction models as [|m rest IH]; intros history; cbn [attempts].
  - split; [reflexivity | apply Nat.le_refl].
  - destruct (succeeded (client history (mkRequest m contents))).
    + cbn. split; [reflexivity | lia].
    + destruct (IH (history ++ [mkRequest m contents])) as [H1 H2].
      cbn. split; [now f_equal | lia].
Qed.

Lemma attempts_responses (models : list string) :
  forall history i m r,
    nth_error (attempts client contents history models) i = Some (m, r) ->
    nth_error models i = Some m
    /\ r = client (history ++ map (fun m' => mkRequest m' contents) (firstn i models))
                  (mkRequest m contents).
Proof.
  induction models as [|m0 rest IH]; intros history i m r H; cbn [attempts] in H.
  - destruct i; discriminate.
  - destruct i as [|i]; cbn in H.
    + injection H as <- <-. cbn. now rewrite app_nil_r.
    + destruct (succeeded (client history (mkRequest m0 contents))).
      * destruct i; discriminate.
      * apply IH in H. destruct H as [H1 H2]. split; [exact H1|].
        cbn. now rewrite <- app_assoc in H2.
Qed.

Lemma first_success_none (att : list (string * result (option string))) :
  first_success att = None <-> Forall (fun a => succeeded (snd a) = None) att.
Proof.
  induction att as [|a att IH]; cbn.
  - split; constructor.
  - destruct (succeeded (snd a)) eqn:E.
    + split; [discriminate | intros H; inversion H; congruence].
    + rewrite IH. split; [now constructor | intros H; now inversion H].
Qed.

Lemma attempts_exhausted (models : list string) :
  forall history,
    first_success (attempts client contents history models) = None ->
    map fst (attempts client contents history models) = models.
Proof.
  induction models as [|m rest IH]; intros history; cbn [attempts];
    [reflexivity|].
  destruct (succeeded (client history (mkRequest m contents))) eqn:E;
    cbn [first_success map fst snd]; rewrite ?E; [discriminate|].
  intros H. f_equal. now apply IH.
Qed.

Lemma attempts_stop_at_success (models : list string) :
  forall history t,
    first_success (attempts client contents history models) = Some t ->
    exists before m r,
      attempts client contents history models = before ++ [(m, r)]
      /\ succeeded r = Some t
      /\ Forall (fun a => succeeded (snd a) = None) before.
Proof.
  induction models as [|m rest IH]; intros history t; cbn [attempts];
    [discriminate|].
  destruct (succeeded (client history (mkRequest m contents))) eqn:E;
    cbn [first_success map fst snd]; rewrite ?E.
  - intros H. injection H as <-. exists [], m, (client history (mkRequest m contents)).
    repeat split; [assumption | constructor].
  - intros H. destruct (IH _ _ H) as [before [m' [r [Heq [Hs Hb]]]]].
    exists ((m, client history (mkRequest m contents)) :: before), m', r.
    rewrite Heq. repeat split; [assumption | now constructor].
Qed.

End Attempts.

Lemma last_error_app att1 att2 before :
  last_error (att1 ++ att2) before = last_error att2 (last_error att1 before).
Proof.
  revert before; induction att1 as [|a att1 IH]; intros before; cbn; auto.
Qed.

Lemma last_error_all_ok att before :
  Forall (fun a => exists t, snd a = Ok t) att -> last_error att before = before.
Proof.
  intros H. revert before; induction H as [|a att [t Ha] _ IH]; intros before;
    cbn; [reflexivity|]. now rewrite Ha, IH.
Qed.

(** The error reported is the one of the last attempt that raised. *)
Lemma last_error_spec att m e later before :
  Forall (fun a => exists t, snd a = Ok t) later ->
  last_error (att ++ (m, Raise e) :: later) before = Some e.
Proof.
  intros H. rewrite last_error_app. cbn. now apply last_error_all_ok.
Qed.

Lemma generate_documentation_spec script_dir genai_Client context model_name
      (w w1 : world) (k : string) :
  get_api_key script_dir w = (Returns k, w1) ->
  generate_documentation script_dir genai_Client context model_name w
  = try_models genai_Client k (user_prompt context) (models_to_try model_name)
               None w1.
Proof. intros H. unfold generate_documentation, bind. now rewrite H. Qed.

Lemma generate_documentation_no_key script_dir genai_Client context model_name
      (w w1 : world) (c : Z) :
  get_api_key script_dir w = (SysExit c, w1) ->
  generate_documentation script_dir genai_Client context model_name w
  = (SysExit 1, mkWorld (environ w1) (stdout w ++ [MsgKeyNotSet]) (requests w) (written w)).
Proof.
  intros H. unfold generate_documentation, bind. rewrite H.
  apply get_api_key_exits in H. destruct H as [-> [H1 [H2 H3]]].
  destruct w1; cbn in *. now subst.
Qed.

Lemma generate_documentation_written script_dir genai_Client context model_name
      (w : world) :
  written (snd (generate_documentation script_dir genai_Client context model_name w))
  = written w.
Proof.
  destruct (get_api_key script_dir w) as [[k|c] w1] eqn:E.
  - rewrite (generate_documentation_spec _ _ _ _ _ _ _ E), try_models_spec.
    apply get_api_key_returns in E. cbv zeta.
    destruct (first_success _); cbn; tauto.
  - now rewrite (generate_documentation_no_key _ _ _ _ _ _ _ E).
Qed.

Lemma main_spec script_dir genai_Client resolve (a : args) (w : world) :
  main script_dir genai_Client resolve a w =
  match resolve (arg_path a) with
  | None => (SysExit 1, printed w [MsgPathNotFound (arg_path a)])
  | Some repo_root =>
      match scan_codebase repo_root with
      | Raise _ => (SysExit 1, printed w [MsgScanning (arg_path a)])
      | Ok [] => (SysExit 1, printed w [MsgScanning (arg_path a); MsgFound 0; MsgNoFiles])
      | Ok files_data =>
          match generate_documentation script_dir genai_Client
                  (build_context files_data) (arg_model a)
                  (before_generation a files_data w) with
          | (SysExit c, w') => (SysExit c, w')
          | (Returns documentation, w') =>
              (Returns tt,
               mkWorld (environ w')
                       (stdout w' ++ [MsgSaved (arg_output a); MsgReviewNote])
                       (requests w')
                       (written w' ++ [(arg_output a, documentation)]))
          end
      end
  end.
Proof.
  unfold main. destruct (resolve (arg_path a)) as [repo|]; [|reflexivity].
  destruct (scan_codebase repo) as [[|r l]|e].
  - unfold bind, print, sys_exit, printed. cbn. now rewrite <- !app_assoc.
  - unfold bind at 1 2 3 4. unfold print at 1 2 3 4.
    cbn [environ stdout requests written].
    unfold before_generation, printed. rewrite <- !app_assoc. cbn [app].
    unfold bind at 1.
    match goal with
    | |- context [generate_documentation ?a ?b ?c ?d ?e] =>
        destruct (generate_documentation a b c d e) as [[doc|c'] w']
    end; [|reflexivity].
    unfold bind, write_text, print. cbn. now rewrite <- !app_assoc.
  - reflexivity.
Qed.

Lemma generate_documentation_exit_code script_dir genai_Client context model_name
      (w : world) (c : Z) :
  fst (generate_documentation script_dir genai_Client context model_name w)
  = SysExit c -> c = 1%Z.
Proof.
  destruct (get_api_key script_dir w) as [[k|c'] w1] eqn:E.
  - rewrite (generate_documentation_spec _ _ _ _ _ _ _ E), try_models_spec.
    cbv zeta. destruct (first_success _); cbn; congruence.
  - rewrite (generate_documentation_no_key _ _ _ _ _ _ _ E). cbn. congruence.
Qed.

(** Every exit of [main] has status 1 and leaves no file written. *)
Lemma main_exit_no_output script_dir genai_Client resolve (a : args) (w : world) (c : Z) :
  fst (main script_dir genai_Client resolve a w) = SysExit c ->
  c = 1%Z /\ written (snd (main script_dir genai_Client resolve a w)) = written w.
Proof.
  rewrite main_spec.
  destruct (resolve (arg_path a)) as [repo|]; [|cbn; split; congruence].
  destruct (scan_codebase repo) as [[|r l]|e]; try (cbn; split; congruence).
  pose proof (generate_documentation_written script_dir genai_Client
                (build_context (r :: l)) (arg_model a)
                (before_generation a (r :: l) w)) as Hw.
  pose proof (generate_documentation_exit_code script_dir genai_Client
                (build_context (r :: l)) (arg_model a)
                (before_generation a (r :: l) w)) as Hc.
  destruct (generate_documentation _ _ _ _ _) as [[doc|c'] w']; cbn in *.
  - discriminate.
  - intros H. injection H as <-. split; [now apply Hc | exact Hw].
Qed.

(** C5, as the code has it.  With the API key resolved, the candidates are
    the explicit model alone when a non-empty one is given and the primary
    then the fallback model otherwise, that is when none is given or the
    one given is the empty string; the requests sent are those of an
    initial part of the candidate list, one each and in its order, each
    answered by the backend after the ones before it; the run returns at the
    first candidate that answers non-empty text, with that text stripped of
    leading and trailing white space, after which nothing more is sent; for
    candidates A then B where A fails and B answers, one request goes to A,
    then one to B, and the result is B's text stripped. *)
Theorem C5_fallback_order script_dir genai_Client (context : string)
        (model_name : option string) (w w1 : world) (k : string) :
  get_api_key script_dir w = (Returns k, w1) ->
  let models := models_to_try model_name in
  let contents := user_prompt context in
  let att := attempts (genai_Client k) contents (requests w) models in
  let run := generate_documentation script_dir genai_Client context model_name w in
  (forall m, model_name = Some m -> m <> ""%string -> models = [m])
  /\ (model_name = None \/ model_name = Some ""%string ->
      models = [PRIMARY_MODEL; FALLBACK_MODEL])
  /\ requests (snd run)
     = requests w ++ map (fun m => mkRequest m contents)
                         (firstn (List.length att) models)
  /\ List.length att <= List.length models
  /\ (forall i m r,
        nth_error att i = Some (m, r) ->
        nth_error models i = Some m
        /\ r = genai_Client k
                 (requests w ++ map (fun m' => mkRequest m' contents) (firstn i models))
                 (mkRequest m contents))
  /\ (forall t,
        first_success att = Some t ->
        fst run = Returns (Py.strip t)
        /\ exists before m r,
             att = before ++ [(m, r)] /\ succeeded r = Some t
             /\ Forall (fun a => succeeded (snd a) = None) before)
  /\ (first_success att = None -> fst run = SysExit 1 /\ map fst att = models)
  /\ (forall A B t last_exception (w0 : world),
        succeeded (genai_Client k (requests w0) (mkRequest A contents)) = None ->
        succeeded (genai_Client k (requests w0 ++ [mkRequest A contents])
                                (mkRequest B contents)) = Some t ->
        let run2 := try_models genai_Client k contents [A; B] last_exception w0 in
        fst run2 = Returns (Py.strip t)
        /\ requests (snd run2)
           = requests w0 ++ [mkRequest A contents; mkRequest B contents]).
Proof.
  intros Hkey models contents att run.
  pose proof (get_api_key_returns _ _ _ _ Hkey) as [_ [_ [_ [Hreq _]]]].
  assert (Hrun : run = try_models genai_Client k contents models None w1).
  { apply generate_documentation_spec. exact Hkey. }
  rewrite try_models_spec in Hrun. cbv zeta in Hrun. rewrite Hreq in Hrun.
  fold att in Hrun.
  destruct (attempts_models (genai_Client k) contents models (requests w))
    as [Hfst Hlen]. fold att in Hfst, Hlen.
  assert (Hsent : requests (snd run)
                  = requests w ++ map (fun m => mkRequest m contents)
                                      (firstn (List.length att) models)).
  { rewrite <- Hfst, map_map.
    destruct (first_success att); rewrite Hrun; reflexivity. }
  split.
  { intros m -> Hm. unfold models. cbn. destruct m; [congruence | reflexivity]. }
  split; [now intros [-> | ->] |].
  split; [exact Hsent|]. split; [exact Hlen|].
  split; [intros i m r; apply attempts_responses|].
  split; [|split].
  - intros t Ht. rewrite Hrun, Ht. split; [reflexivity|].
    now apply attempts_stop_at_success.
  - intros Hnone. rewrite Hrun, Hnone. split; [reflexivity|].
    now apply attempts_exhausted.
  - intros A B t le w0 HA HB run2. unfold run2.
    rewrite try_models_spec. cbv zeta. cbn [attempts].
    rewrite HA. cbn [attempts]. rewrite HB.
    cbn [first_success snd]. rewrite HA, HB. split; reflexivity.
Qed.

Lemma C5_witness :
  fst (generate_documentation (FsRoot NoFile) padded_backend "ctx" None
                              (initial_world (Some "key"%string)))
  = Returns (Py.strip "  # Guide  ").
Proof.
  refine (proj1 (proj1 (proj2 (proj2 (proj2 (proj2 (proj2
    (C5_fallback_order (FsRoot NoFile) padded_backend "ctx" None
       (initial_world (Some "key"%string)) (initial_world (Some "key"%string))
       "key" eq_refl)))))) "  # Guide  "%string eq_refl)).
Defined.

(** The claim C5 read on all backends and all explicit models fails twice.
    On [padded_backend] one request goes to the primary model, which
    raises, one to the fallback model, which answers, and the text returned
    is not the answer.  And when the caller supplies the empty string as
    the model, the candidates are not that model alone: the requests go to
    the primary and the fallback model. *)
Lemma C5_counterexample :
  let run := generate_documentation (FsRoot NoFile) padded_backend "ctx" None
                                    (initial_world (Some "key"%string)) in
  let empty_model := generate_documentation (FsRoot NoFile) padded_backend "ctx"
                       (Some ""%string) (initial_world (Some "key"%string)) in
  map req_model (requests (snd run)) = [PRIMARY_MODEL; FALLBACK_MODEL]
  /\ padded_backend "key" [] (mkRequest PRIMARY_MODEL (user_prompt "ctx"))
     = Raise (Exn "503 UNAVAILABLE")
  /\ padded_backend "key" [mkRequest PRIMARY_MODEL (user_prompt "ctx")]
                    (mkRequest FALLBACK_MODEL (user_prompt "ctx"))
     = Ok (Some "  # Guide  "%string)
  /\ fst run = Returns "# Guide"%string
  /\ fst run <> Returns "  # Guide  "%string
  /\ models_to_try (Some ""%string) = [PRIMARY_MODEL; FALLBACK_MODEL]
  /\ models_to_try (Some ""%string) <> [""%string]
  /\ map req_model (requests (snd empty_model)) = [PRIMARY_MODEL; FALLBACK_MODEL].
Proof.
  cbv zeta. split; [reflexivity|]. split; [reflexivity|]. split; [reflexivity|].
  split; [reflexivity|]. split; [vm_compute; discriminate|].
  split; [reflexivity|]. split; [discriminate | reflexivity].
Qed.

(** C7. With the API key resolved, [generate_documentation] ends the
    process exactly when no candidate answered non-empty text.  When every
    candidate raised or answered empty text, each was tried, the exit status
    is 1, the last lines printed are the failure line and, if any request
    raised, the error of the last one that did, and nothing is written.
    Whenever [main] exits, the status is 1 and no output file is written;
    it does so when the generation fails. *)
Theorem C7_generation_failure script_dir genai_Client resolve (context : string)
        (model_name : option string) (w w1 : world) (k : string) :
  get_api_key script_dir w = (Returns k, w1) ->
  let models := models_to_try model_name in
  let att := attempts (genai_Client k) (user_prompt context) (requests w) models in
  let run := generate_documentation script_dir genai_Client context model_name w in
  ((exists c, fst run = SysExit c)
   <-> Forall (fun a => succeeded (snd a) = None) att)
  /\ (Forall (fun a => succeeded (snd a) = None) att ->
      fst run = SysExit 1
      /\ map fst att = models
      /\ stdout (snd run)
         = stdout w ++ flat_map attempt_log att ++ failure_report (last_error att None)
      /\ written (snd run) = written w
      /\ (forall before m e later,
            att = before ++ (m, Raise e) :: later ->
            Forall (fun a => exists t, snd a = Ok t) later ->
            last_error att None = Some e)
      /\ (Forall (fun a => exists t, snd a = Ok t) att ->
          last_error att None = None))
  /\ (forall (a : args) (w0 : world) (c : Z),
        fst (main script_dir genai_Client resolve a w0) = SysExit c ->
        c = 1%Z
        /\ written (snd (main script_dir genai_Client resolve a w0)) = written w0)
  /\ (forall (a : args) (w0 : world) repo_root r files_data c,
        resolve (arg_path a) = Some repo_root ->
        scan_codebase repo_root = Ok (r :: files_data) ->
        fst (generate_documentation script_dir genai_Client
               (build_context (r :: files_data)) (arg_model a)
               (before_generation a (r :: files_data) w0)) = SysExit c ->
        fst (main script_dir genai_Client resolve a w0) = SysExit 1).
Proof.
  intros Hkey models att run.
  pose proof (get_api_key_returns _ _ _ _ Hkey) as [_ [_ [Hout [Hreq Hwr]]]].
  assert (Hrun : run = try_models genai_Client k (user_prompt context) models None w1).
  { apply generate_documentation_spec. exact Hkey. }
  rewrite try_models_spec in Hrun. cbv zeta in Hrun.
  rewrite Hreq, Hout, Hwr in Hrun. fold att in Hrun.
  split; [|split; [|split]].
  - rewrite <- first_success_none. rewrite Hrun.
    destruct (first_success att) as [t|]; cbn.
    + split; [intros [c Hc]; discriminate | discriminate].
    + split; [reflexivity | intros _; now exists 1%Z].
  - intros Hall. pose proof Hall as Hnone. apply first_success_none in Hnone.
    rewrite Hrun, Hnone. cbn.
    split; [reflexivity|].
    split; [now apply attempts_exhausted|].
    split; [reflexivity|]. split; [reflexivity|]. split.
    + intros before m e later -> Hlater. now apply last_error_spec.
    + apply last_error_all_ok.
  - intros a w0 c. apply main_exit_no_output.
  - intros a w0 repo r files_data c Hres Hscan Hgen.
    rewrite main_spec, Hres, Hscan. cbv beta iota.
    pose proof (generate_documentation_exit_code _ _ _ _ _ _ Hgen) as ->.
    destruct (generate_documentation script_dir genai_Client
                (build_context (r :: files_data)) (arg_model a)
                (before_generation a (r :: files_data) w0)) as [[doc|c'] w'];
      cbn [fst] in Hgen; cbv beta iota; cbn [fst];
      [discriminate Hgen | injection Hgen as ->; reflexivity].
Qed.

Lemma C7_witness :
  stdout (snd (generate_documentation (FsRoot NoFile) failing_backend "ctx" None
                 (initial_world (Some "key"%string))))
  = [MsgAttempting PRIMARY_MODEL;
     MsgModelFailed PRIMARY_MODEL (Exn "429 RESOURCE_EXHAUSTED");
     MsgAttempting FALLBACK_MODEL; MsgNoText FALLBACK_MODEL;
     MsgAllModelsFailed; MsgLastError (Exn "429 RESOURCE_EXHAUSTED")].
Proof.
  pose proof (C7_generation_failure (FsRoot NoFile) failing_backend (fun _ => None)
                "ctx" None (initial_world (Some "key"%string))
                (initial_world (Some "key"%string)) "key" eq_refl) as H.
  cbv zeta in H. destruct H as [_ [H _]].
  assert (Hall : Forall (fun a : string * result (option string) =>
                           succeeded (snd a) = None)
                   (attempts (failing_backend "key"%string) (user_prompt "ctx") []
                             (models_to_try None))).
  { repeat constructor. }
  destruct (H Hall) as [_ [_ [Hout _]]]. exact Hout.
Defined.

(** ** The credential resolver: further facts *)

(** When [get_api_key] returns, the key is not empty; otherwise the process
    exits with status 1 after the message. *)
Lemma get_api_key_nonempty_or_exit (script_dir : location) (w : world) :
  (exists k w', get_api_key script_dir w = (Returns k, w') /\ k <> ""%string)
  \/ (exists w', get_api_key script_dir w = (SysExit 1, w')
                 /\ stdout w' = stdout w ++ [MsgKeyNotSet]).
Proof.
  rewrite get_api_key_spec. cbv zeta.
  destruct (truthy_opt _) eqn:E.
  - left. destruct (if truthy_opt (environ w) then _ else _) as [k|];
      [|discriminate].
    exists k. eexists. split; [reflexivity|]. now destruct k.
  - right. eexists. split; reflexivity.
Qed.

(** A non-empty value in the environment is returned without reading any
    file. *)
Lemma get_api_key_environment_first (script_dir : location) (w : world) (k : string) :
  environ w = Some k -> k <> ""%string ->
  get_api_key script_dir w = (Returns k, w).
Proof.
  intros He Hk. rewrite get_api_key_spec, He. cbn.
  destruct k; [congruence|]. cbn. destruct w; cbn in *. now subst.
Qed.

(** Only the directory of the script and the five above it are read. *)
Lemma load_env_loop_depth (n : nat) :
  forall d env, load_env_loop n d env = load_env_loop n (truncate n d) env.
Proof.
  induction n as [|n IH]; intros d env; [reflexivity|].
  destruct d as [f | f parent].
  - destruct n; reflexivity.
  - destruct n as [|n'].
    + cbn. now destruct (read_env_path f).
    + cbn [truncate load_env_loop env_file_of].
      destruct (read_env_path f); [reflexivity|]. apply IH.
Qed.

(** C9 at [quoted_empty_env]: the first line of the nearest file assigns
    the key, the assignment of [None] raises inside the [try], the rest of
    that file is not read and the value comes from the file of the parent
    directory.  At [unquoted_empty_env] the first line wins: the
    variable is set to the empty string and the process exits. *)
Theorem C9_quoted_empty_value_falls_through :
  re_match_key "GEMINI_API_KEY=''" = Some (Some ""%string, None)
  /\ scan_env_lines (Py.splitlines
       ("GEMINI_API_KEY=''" ++ Py.nl ++ "GEMINI_API_KEY=abc")%string)
     = Raise (Exn "TypeError: str expected, not NoneType")
  /\ fst (get_api_key quoted_empty_env (initial_world None)) = Returns "xyz"%string
  /\ re_match_key "GEMINI_API_KEY=" = Some (None, Some ""%string)
  /\ get_api_key unquoted_empty_env (initial_world None)
     = (SysExit 1, mkWorld (Some ""%string) [MsgKeyNotSet] [] []).
Proof. repeat split; reflexivity. Qed.

(* ================================================================== *)
(** * Further properties *)
(* ================================================================== *)

(** ** The credential resolver *)

Lemma get_api_key_environment_first_aux (script_dir : location) (w : world) (k : string) :
  Py.truthy k = true -> environ w = Some k ->
  get_api_key script_dir w = (Returns k, w).
Proof.
  intros Hk He. rewrite get_api_key_spec, He. cbn.
  destruct k; [discriminate|]. cbn. destruct w; cbn in *. now subst.
Qed.


(** X2. A non-empty value of the environment variable is the key, wherever
    the script is installed and whatever the [.env] files hold; the call
    changes nothing. *)
Theorem environment_value_wins (w : world) (k : string) :
  environ w = Some k -> k <> ""%string ->
  forall script_dir, get_api_key script_dir w = (Returns k, w).
Proof.
  intros He Hk script_dir. apply get_api_key_environment_first_aux; [|assumption].
  now destruct k.
Qed.

Lemma environment_value_wins_witness :
  get_api_key quoted_empty_env (initial_world (Some "from-env"%string))
  = (Returns "from-env"%string, initial_world (Some "from-env"%string)).
Proof.
  refine (environment_value_wins (initial_world (Some "from-env"%string))
            "from-env" eq_refl _ quoted_empty_env).
  discriminate.
Defined.

(** X3. [get_api_key] depends on the directory of the script and the five
    directories above it only: a [.env] file further up is never read. *)
Theorem get_api_key_search_depth (script_dir : location) (w : world) :
  get_api_key script_dir w = get_api_key (truncate 6 script_dir) w.
Proof.
  rewrite !get_api_key_spec. now rewrite <- load_env_loop_depth.
Qed.

Lemma load_env_loop_cases (n : nat) :
  forall d,
    (exists k, forall env, load_env_loop n d env = Some k)
    \/ (forall env, load_env_loop n d env = env).
Proof.
  induction n as [|n IH]; intros d; [right; reflexivity|].
  cbn [load_env_loop].
  destruct (read_env_path (env_file_of d)) as [k|].
  - left. exists k. reflexivity.
  - destruct d as [f | f parent]; [right; reflexivity | apply IH].
Qed.

(** X4. An environment variable set to the empty string counts as unset:
    the files are searched, and the outcome and the output are those of a
    run without the variable. *)
Theorem get_api_key_empty_variable_as_unset (script_dir : location) (w : world) :
  let set_empty := get_api_key script_dir (with_environ (Some ""%string) w) in
  let unset := get_api_key script_dir (with_environ None w) in
  fst set_empty = fst unset
  /\ stdout (snd set_empty) = stdout (snd unset)
  /\ requests (snd set_empty) = requests w
  /\ written (snd set_empty) = written w.
Proof.
  cbv zeta. rewrite !get_api_key_spec. cbv zeta.
  unfold with_environ. cbn [environ stdout requests written truthy_opt Py.truthy].
  destruct (load_env_loop_cases 6 script_dir) as [[k Hk] | Hid].
  - rewrite !Hk. destruct (truthy_opt (Some k)); cbn; auto.
  - rewrite !Hid. cbn. auto.
Qed.

(** X5. Once [get_api_key] has returned a key, the key is in the
    environment: a later call returns the same key whatever files exist,
    and changes nothing. *)
Theorem get_api_key_cached (script_dir : location) (w w1 : world) (k : string) :
  get_api_key script_dir w = (Returns k, w1) ->
  forall other_dir, get_api_key other_dir w1 = (Returns k, w1).
Proof.
  intros H other. apply get_api_key_returns in H.
  destruct H as [Ht [He _]].
  apply get_api_key_environment_first_aux; assumption.
Qed.

Lemma get_api_key_cached_witness :
  get_api_key (FsRoot NoFile)
              (mkWorld (Some "xyz"%string) [] [] [])
  = (Returns "xyz"%string, mkWorld (Some "xyz"%string) [] [] []).
Proof.
  exact (get_api_key_cached (Child NoFile (FsRoot (Text "GEMINI_API_KEY=xyz")))
           (initial_world None) (mkWorld (Some "xyz"%string) [] [] []) "xyz"
           eq_refl (FsRoot NoFile)).
Defined.

Section EnvLines.

Open Scope string_scope.

Lemma re_match_key_prefix (line : string) x :
  re_match_key line = Some x -> exists r, line = KEY_NAME ++ r.
Proof.
  unfold re_match_key. destruct (Py.startswith line KEY_NAME) eqn:E; [|discriminate].
  intros _. now apply prefix_spec.
Qed.

Lemma key_line_not_skipped (line : string) x :
  re_match_key line = Some x ->
  negb (Py.truthy line) || Py.startswith line "#" = false.
Proof.
  intros H. apply re_match_key_prefix in H. destruct H as [r ->]. reflexivity.
Qed.

Lemma scan_env_lines_passed_over (pre rest : list string) :
  forallb passed_over pre = true ->
  scan_env_lines (pre ++ rest) = scan_env_lines rest.
Proof.
  induction pre as [|a pre IH]; [reflexivity|]. cbn [forallb app scan_env_lines].
  intros H. apply andb_true_iff in H. destruct H as [Ha Hpre].
  unfold passed_over in Ha.
  destruct (negb (Py.truthy (Py.strip a)) || Py.startswith (Py.strip a) "#");
    [now apply IH|].
  destruct (re_match_key (Py.strip a)); [discriminate | now apply IH].
Qed.

(** X6. In a [.env] file the first line that assigns the key decides: blank
    lines, comments and other lines before it are passed over, the lines
    after it are not read, and the result is what the assignment of that
    line's value gives: the key, or the exception the assignment raises
    ([TypeError] for the [None] of an empty quoted string, [ValueError] for
    a value with the character of code 0).  A file without such a line
    assigns nothing. *)
Theorem first_assignment_decides (before after : list string) (line : string)
        (g1 g2 : option string) :
  forallb passed_over before = true ->
  re_match_key (Py.strip line) = Some (g1, g2) ->
  scan_env_lines (before ++ line :: after)
  = match py_or g1 g2 with
    | Some key =>
        if Py.contains NUL key then Raise (Exn "ValueError: embedded null byte")
        else Ok (Some key)
    | None => Raise (Exn "TypeError: str expected, not NoneType")
    end
  /\ scan_env_lines before = Ok None.
Proof.
  intros Hb Hm. split.
  - rewrite scan_env_lines_passed_over by assumption. cbn [scan_env_lines].
    rewrite (key_line_not_skipped _ _ Hm), Hm.
    destruct (py_or g1 g2) as [key|]; [|reflexivity].
    cbn [environ_assign]. now destruct (Py.contains NUL key).
  - rewrite <- (app_nil_r before). now rewrite scan_env_lines_passed_over.
Qed.

Lemma first_assignment_decides_witness :
  scan_env_lines (["# local settings"; ""; "DEBUG=1"]
                  ++ "  GEMINI_API_KEY = 'k-123'  " :: ["GEMINI_API_KEY=other"])
  = Ok (Some "k-123").
Proof.
  exact (proj1 (first_assignment_decides
                  ["# local settings"; ""; "DEBUG=1"] ["GEMINI_API_KEY=other"]
                  "  GEMINI_API_KEY = 'k-123'  " (Some "k-123") None
                  eq_refl eq_refl)).
Defined.

Lemma lstrip_all_space (ws : string) (c : ascii) (r : string) :
  all_space ws = true -> Py.isspace c = false ->
  Py.lstrip Py.isspace (ws ++ String c r) = String c r.
Proof.
  intros Hws Hc. induction ws as [|a ws IH]; cbn [append Py.lstrip].
  - now rewrite Hc.
  - cbn [all_space] in Hws. apply andb_true_iff in Hws. destruct Hws as [-> Hws].
    now apply IH.
Qed.

Lemma get_after (a : string) (c : ascii) (r : string) :
  String.get (String.length a) (a ++ String c r) = Some c.
Proof. induction a as [|x a IH]; [reflexivity | exact IH]. Qed.

Lemma last_char_append (a : string) (c : ascii) :
  last_char (a ++ String c "") = Some c.
Proof.
  unfold last_char. rewrite append_length. cbn [String.length].
  replace (String.length a + 1 - 1)%nat with (String.length a) by lia.
  apply get_after.
Qed.

Lemma drop_last_one (a : string) (c : ascii) :
  Py.drop_last 1 (a ++ String c "") = a.
Proof.
  unfold Py.drop_last. rewrite append_length. cbn [String.length].
  replace (String.length a + 1 - 1)%nat with (String.length a) by lia.
  apply substring_append_left.
Qed.

Lemma is_quote_not_space (q : ascii) : is_quote q = true -> Py.isspace q = false.
Proof.
  unfold is_quote. intros H. apply orb_true_iff in H.
  destruct H as [H | H]; apply Ascii.eqb_eq in H; subst q; reflexivity.
Qed.

Lemma re_match_key_value (ws1 ws2 : string) (c : ascii) (rest : string) :
  all_space ws1 = true -> all_space ws2 = true -> Py.isspace c = false ->
  re_match_key (key_line ws1 ws2 (String c rest))
  = if is_quote c && (2 <=? String.length (String c rest))%nat
       && match last_char (String c rest) with
          | Some q' => is_quote q'
          | None => false
          end
    then Some (Some (Py.drop_last 1 rest), None)
    else Some (None, Some (String c rest)).
Proof.
  intros H1 H2 Hc. unfold re_match_key, key_line.
  replace (Py.startswith (KEY_NAME ++ ws1 ++ "=" ++ ws2 ++ String c rest) KEY_NAME)
    with true by (symmetry; apply prefix_spec; eexists; reflexivity).
  change (Py.slice_from (String.length KEY_NAME)
            (KEY_NAME ++ ws1 ++ "=" ++ ws2 ++ String c rest))
    with (ws1 ++ String "=" (ws2 ++ String c rest)).
  rewrite lstrip_all_space by (assumption || reflexivity).
  rewrite lstrip_all_space by assumption.
  reflexivity.
Qed.

(** X7. A value written between two quote characters, single or double and
    not necessarily the same one, is taken without them and otherwise
    unchanged, white space around the equals sign being ignored (on a line
    as [splitlines] gives it, without a line feed). *)
Theorem quoted_value_is_unquoted (ws1 ws2 value : string) (q q' : ascii) :
  all_space ws1 = true -> all_space ws2 = true ->
  is_quote q = true -> is_quote q' = true ->
  has_char Py.LF (key_line ws1 ws2 value) = false ->
  re_match_key (key_line ws1 ws2 (String q (value ++ String q' "")))
  = Some (Some value, None).
Proof.
  intros H1 H2 Hq Hq' _.
  rewrite re_match_key_value by (assumption || now apply is_quote_not_space).
  rewrite Hq.
  change (String q (value ++ String q' "")) with (String q value ++ String q' "").
  rewrite last_char_append, Hq', append_length.
  replace (2 <=? String.length (String q value) + String.length (String q' ""))%nat
    with true by (symmetry; apply Nat.leb_le; cbn; lia).
  cbn [andb]. now rewrite drop_last_one.
Qed.

Lemma quoted_value_is_unquoted_witness :
  re_match_key (key_line " " "  " (String "'" ("sk-1 # x" ++ String "034" "")))
  = Some (Some "sk-1 # x", None).
Proof.
  exact (quoted_value_is_unquoted " " "  " "sk-1 # x" "'" "034"
           eq_refl eq_refl eq_refl eq_refl eq_refl).
Defined.

Lemma rstrip_head (drop : ascii -> bool) (c : ascii) (rest : string) :
  drop c = false -> exists r, Py.rstrip drop (String c rest) = String c r.
Proof.
  intros Hc. cbn [Py.rstrip]. destruct (Py.rstrip drop rest).
  - rewrite Hc. now exists "".
  - eexists. reflexivity.
Qed.

Lemma rstrip_append (drop : ascii -> bool) (a b : string) :
  Py.rstrip drop b <> "" ->
  Py.rstrip drop (a ++ b) = a ++ Py.rstrip drop b.
Proof.
  intros Hb. induction a as [|x a IH]; [reflexivity|].
  cbn [append Py.rstrip]. rewrite IH.
  destruct (a ++ Py.rstrip drop b) eqn:E; [|reflexivity].
  destruct a; [contradiction | discriminate].
Qed.

Lemma contains_left_false (p a b : string) :
  Py.contains p (a ++ b) = false -> Py.contains p a = false.
Proof.
  intros H. destruct (Py.contains p a) eqn:E; [|reflexivity].
  apply contains_spec in E. destruct E as [l [r ->]].
  assert (Ht : Py.contains p ((l ++ p ++ r) ++ b) = true).
  { apply contains_spec. exists l, (r ++ b). now rewrite !append_assoc. }
  congruence.
Qed.

(** X8. A value that does not begin with a quote character is taken whole,
    up to the end of the line: what follows it on the line, a comment
    included, is part of the key; only white space at the end of the line
    is dropped.  (On a line as [splitlines] gives it, without a line feed,
    and for a value the environment accepts, without the character of
    code 0.) *)
Theorem unquoted_value_is_whole (ws1 ws2 : string) (c : ascii) (rest : string) :
  all_space ws1 = true -> all_space ws2 = true ->
  Py.isspace c = false -> is_quote c = false ->
  has_char Py.LF (key_line ws1 ws2 (String c rest)) = false ->
  Py.contains NUL (String c rest) = false ->
  re_match_key (key_line ws1 ws2 (String c rest)) = Some (None, Some (String c rest))
  /\ scan_env_lines [key_line ws1 ws2 (String c rest)]
     = Ok (Some (Py.rstrip Py.isspace (String c rest))).
Proof.
  intros H1 H2 Hc Hq _ Hnul.
  assert (Hm : forall r, re_match_key (key_line ws1 ws2 (String c r))
                         = Some (None, Some (String c r))).
  { intros r. rewrite re_match_key_value by assumption. now rewrite Hq. }
  split; [apply Hm|].
  destruct (rstrip_head Py.isspace c rest Hc) as [r Hr].
  assert (Hs : Py.strip (key_line ws1 ws2 (String c rest))
               = key_line ws1 ws2 (String c r)).
  { unfold Py.strip, Py.strip_with, key_line.
    change (Py.lstrip Py.isspace (KEY_NAME ++ ws1 ++ "=" ++ ws2 ++ String c rest))
      with (KEY_NAME ++ ws1 ++ "=" ++ ws2 ++ String c rest).
    rewrite <- Hr.
    rewrite <- !append_assoc.
    apply rstrip_append. rewrite Hr. discriminate. }
  assert (Hnul' : Py.contains NUL (String c r) = false).
  { destruct (rstrip_split Py.isspace (String c rest)) as [tail Htail].
    rewrite Hr in Htail. rewrite Htail in Hnul.
    now apply contains_left_false in Hnul. }
  cbn [scan_env_lines]. rewrite Hs, Hm, Hr.
  change (py_or None (Some (String c r))) with (Some (String c r)).
  cbn [environ_assign]. rewrite Hnul'. reflexivity.
Qed.

Lemma unquoted_value_is_whole_witness :
  scan_env_lines [key_line "" " " "abc # my key  "] = Ok (Some "abc # my key").
Proof.
  exact (proj2 (unquoted_value_is_whole "" " " "a" "bc # my key  "
                  eq_refl eq_refl eq_refl eq_refl eq_refl eq_refl)).
Defined.

End EnvLines.

(** ** The ignore-rule loader *)

Section StripFacts.

Variable drop : ascii -> bool.

Lemma rstrip_idempotent (s : string) :
  Py.rstrip drop (Py.rstrip drop s) = Py.rstrip drop s.
Proof.
  induction s as [|c s IH]; [reflexivity|]. cbn [Py.rstrip].
  destruct (Py.rstrip drop s) as [|d r] eqn:E.
  - destruct (drop c) eqn:Ec; [reflexivity|]. cbn. now rewrite Ec.
  - change (Py.rstrip drop (String c (String d r)))
      with (match Py.rstrip drop (String d r) with
            | EmptyString => if drop c then EmptyString else String c EmptyString
            | String a b => String c (String a b)
            end).
    now rewrite IH.
Qed.

Lemma lstrip_head (s : string) :
  Py.lstrip drop s = ""%string
  \/ exists c r, Py.lstrip drop s = String c r /\ drop c = false.
Proof.
  induction s as [|c s IH]; [now left|]. cbn [Py.lstrip].
  destruct (drop c) eqn:Ec; [exact IH|]. right. now exists c, s.
Qed.

Lemma strip_with_idempotent (s : string) :
  Py.strip_with drop (Py.strip_with drop s) = Py.strip_with drop s.
Proof.
  unfold Py.strip_with.
  destruct (lstrip_head s) as [-> | [c [r [-> Hc]]]]; [reflexivity|].
  destruct (rstrip_head drop c r Hc) as [r' Hr]. rewrite Hr.
  cbn [Py.lstrip]. rewrite Hc. rewrite <- Hr. apply rstrip_idempotent.
Qed.

End StripFacts.

(** X9. Every pattern read from [.gitignore] is a line of the file without
    the white space around it, is not empty and is not a comment. *)
Theorem gitignore_patterns_are_clean (repo_root : tree) (pattern : string) :
  In pattern (load_gitignore_patterns repo_root) ->
  pattern <> ""%string
  /\ Py.startswith pattern "#" = false
  /\ Py.strip pattern = pattern
  /\ exists text line,
       In (".gitignore"%string, Ok text) (tree_files repo_root)
       /\ In line (Py.splitlines text) /\ pattern = Py.strip line.
Proof.
  unfold load_gitignore_patterns.
  destruct (find _ (tree_files repo_root)) as [[nm [text|e]]|] eqn:E;
    cbn; try tauto.
  apply find_some in E. destruct E as [Hin Hnm]. cbn in Hnm.
  apply String.eqb_eq in Hnm. subst nm.
  unfold pattern_lines. rewrite filter_In, in_map_iff.
  intros [[line [<- Hline]] Hkeep].
  apply andb_true_iff in Hkeep. destruct Hkeep as [Ht Hc].
  apply negb_true_iff in Hc.
  split; [intros Heq; rewrite Heq in Ht; discriminate|].
  split; [assumption|].
  split; [apply strip_with_idempotent|].
  now exists text, line.
Qed.

Lemma gitignore_patterns_are_clean_witness :
  Py.strip "*.log" = "*.log"%string.
Proof.
  refine (proj1 (proj2 (proj2 (gitignore_patterns_are_clean
    (Dir [(".gitignore"%string,
           Ok ("# logs" ++ Py.nl ++ "  *.log  " ++ Py.nl ++ Py.nl ++ "tmp/")%string)] [])
    "*.log" _)))).
  vm_compute. left. reflexivity.
Defined.

(** ** The path filter and the scanner *)

Lemma is_ignored_monotone (rel pats pats' : list string) :
  incl pats pats' -> is_ignored rel pats = true -> is_ignored rel pats' = true.
Proof.
  intros Hincl H. apply is_ignored_spec in H. apply is_ignored_spec.
  destruct H as [H | H]; [now left | right].
  apply match_patterns_spec in H. apply match_patterns_spec.
  destruct H as [p [Hin Hp]]. exists p. split; [now apply Hincl | assumption].
Qed.

Lemma is_ignored_antitone (rel pats pats' : list string) :
  incl pats pats' -> is_ignored rel pats' = false -> is_ignored rel pats = false.
Proof.
  intros Hincl H. destruct (is_ignored rel pats) eqn:E; [|reflexivity].
  rewrite (is_ignored_monotone _ _ _ Hincl E) in H. discriminate.
Qed.

(** X10. Ignore rules only take away: every record of a scan under a rule
    set is a record of the scan under any part of that rule set.  So what
    [scan_codebase] returns is among what the built-in rules alone leave. *)
Theorem more_rules_fewer_records (pats pats' : list string) (t : tree) :
  incl pats pats' ->
  exists fewer more,
    scan_with pats' t = Ok fewer /\ scan_with pats t = Ok more
    /\ incl fewer more.
Proof.
  intros Hincl. exists (map record_of (kept_files pats' t [])),
                       (map record_of (kept_files pats t [])).
  rewrite !scan_with_spec. split; [reflexivity|]. split; [reflexivity|].
  intros r Hr. apply in_map_iff in Hr. destruct Hr as [[rel text] [<- Hin]].
  apply in_map. apply kept_files_sound in Hin.
  destruct Hin as [parent [f [sub [Heq [Hdir [Hf [Hi [He Hanc]]]]]]]].
  cbn [app] in Heq. subst rel.
  apply (kept_files_complete pats t [] parent f sub text); auto.
  - cbn [app]. eapply is_ignored_antitone; eassumption.
  - intros p Hp. cbn [app]. eapply is_ignored_antitone; [eassumption|].
    now apply Hanc.
Qed.

Lemma more_rules_fewer_records_witness :
  exists fewer more,
    scan_with ("docs" :: DEFAULT_IGNORED)
              (Dir [("a.py"%string, Ok "1"%string)]
                   [("docs"%string, Dir [("b.md"%string, Ok "2"%string)] [])])
    = Ok fewer
    /\ scan_with DEFAULT_IGNORED
                 (Dir [("a.py"%string, Ok "1"%string)]
                      [("docs"%string, Dir [("b.md"%string, Ok "2"%string)] [])])
       = Ok more
    /\ incl fewer more.
Proof.
  apply (more_rules_fewer_records DEFAULT_IGNORED ("docs"%string :: DEFAULT_IGNORED)).
  intros x Hx. now right.
Defined.

Section ComponentFacts.

Open Scope string_scope.

Lemma replace_char_append a b (s1 s2 : string) :
  Py.replace_char a b (s1 ++ s2) = Py.replace_char a b s1 ++ Py.replace_char a b s2.
Proof. induction s1 as [|c s1 IH]; cbn; [reflexivity | now rewrite IH]. Qed.

Lemma join_contains (x : string) (rel : list string) :
  In x rel -> occurs_in x (Py.join "/" rel).
Proof.
  induction rel as [|y rel IH]; [intros []|].
  intros [-> | Hin].
  - destruct rel as [|z rel].
    + exists "", "". cbn. now rewrite append_nil_r.
    + exists "", ("/" ++ Py.join "/" (z :: rel)). reflexivity.
  - destruct rel as [|z rel]; [destruct Hin|].
    destruct (IH Hin) as [l [r Hlr]].
    exists (y ++ "/" ++ l), r. rewrite join_cons2, Hlr.
    now rewrite !append_assoc.
Qed.

Lemma occurs_in_trans (a b c : string) :
  occurs_in a b -> occurs_in b c -> occurs_in a c.
Proof.
  intros [l1 [r1 ->]] [l2 [r2 ->]]. exists (l2 ++ l1), (r1 ++ r2).
  now rewrite !append_assoc.
Qed.

Lemma path_str_contains (sub : string) (rel : list string) (x : string) :
  has_char Py.backslash sub = false ->
  In x rel -> occurs_in sub x -> occurs_in sub (Path.path_str rel).
Proof.
  intros Hsub Hin Hocc.
  pose proof (occurs_in_trans _ _ _ Hocc (join_contains x rel Hin)) as [l [r H]].
  unfold Path.path_str, Path.str. destruct rel as [|y rel]; [destruct Hin|].
  rewrite H, !replace_char_append, (replace_char_absent _ _ sub Hsub).
  eexists. eexists. reflexivity.
Qed.

End ComponentFacts.

(** X11. A pattern without a backslash excludes every path one of whose
    components contains the pattern, trimmed of slashes, anywhere in its
    name: [dist] excludes [docs/distribution.md], and [.git] excludes
    [.github] and [.gitignore]. *)
Theorem pattern_excludes_any_component
        (pats : list string) (pattern : string) (rel : list string) (x : string) :
  In pattern pats ->
  has_char Py.backslash (Py.strip_slash pattern) = false ->
  In x rel -> occurs_in (Py.strip_slash pattern) x ->
  is_ignored rel pats = true.
Proof.
  intros Hp Hb Hx Hocc. apply is_ignored_spec. right.
  apply match_patterns_spec. exists pattern. split; [assumption|].
  left. eapply path_str_contains; eassumption.
Qed.

Lemma pattern_excludes_any_component_witness :
  is_ignored ["docs"; "distribution.md"]%string DEFAULT_IGNORED = true.
Proof.
  apply (pattern_excludes_any_component DEFAULT_IGNORED "dist"
           ["docs"; "distribution.md"]%string "distribution.md").
  - cbn. tauto.
  - reflexivity.
  - cbn. tauto.
  - exists ""%string, "ribution.md"%string. reflexivity.
Defined.

Lemma contains_empty (s : string) : Py.contains "" s = true.
Proof. destruct s; reflexivity. Qed.

Lemma kept_files_all_ignored (pats : list string) (t : tree) :
  (forall rel, is_ignored rel pats = true) -> kept_files pats t [] = [].
Proof.
  intros Hall. destruct (kept_files pats t []) as [|[rel text] l] eqn:E;
    [reflexivity|].
  assert (Hin : In (rel, text) (kept_files pats t [])) by (rewrite E; now left).
  apply kept_files_sound in Hin.
  destruct Hin as [_ [_ [_ [_ [_ [_ [Hi _]]]]]]].
  rewrite Hall in Hi. discriminate.
Qed.

(** X12. A pattern made of slashes only is trimmed to the empty string,
    which occurs in every path: it excludes everything, and the scan returns
    no record. *)
Theorem slash_only_pattern_excludes_all
        (pats : list string) (pattern : string) (t : tree) :
  In pattern pats -> Py.strip_slash pattern = ""%string ->
  (forall rel, is_ignored rel pats = true) /\ scan_with pats t = Ok [].
Proof.
  intros Hin Hempty.
  assert (Hall : forall rel, is_ignored rel pats = true).
  { intros rel. apply is_ignored_spec. right. apply match_patterns_spec.
    exists pattern. split; [assumption|]. left. rewrite Hempty.
    apply contains_spec, contains_empty. }
  split; [exact Hall|].
  rewrite scan_with_spec. now rewrite kept_files_all_ignored.
Qed.

Lemma slash_only_pattern_excludes_all_witness :
  scan_with ("//"%string :: DEFAULT_IGNORED)
            (Dir [("app.py"%string, Ok "x"%string)] []) = Ok [].
Proof.
  apply (slash_only_pattern_excludes_all ("//"%string :: DEFAULT_IGNORED) "//");
    [now left | reflexivity].
Defined.

Lemma replace_char_removes a b (s : string) :
  Ascii.eqb b a = false -> has_char a (Py.replace_char a b s) = false.
Proof.
  intros Hab. induction s as [|c s IH]; [reflexivity|]. cbn.
  rewrite IH, orb_false_r. destruct (Ascii.eqb c a) eqn:E; assumption.
Qed.

(** X13. No recorded path contains a backslash. *)
Theorem recorded_paths_have_no_backslash (pats : list string) (t : tree) :
  exists files_data,
    scan_with pats t = Ok files_data
    /\ forall r, In r files_data -> has_char Py.backslash (path r) = false.
Proof.
  exists (map record_of (kept_files pats t [])).
  split; [apply scan_with_spec|].
  intros r Hr. apply in_map_iff in Hr. destruct Hr as [[rel text] [<- _]].
  cbn. now apply replace_char_removes.
Qed.

(** X16. The files of a directory are recorded before the files of its
    subdirectories: the scan of a directory is the scan of its files
    followed by the scan of its subdirectories. *)
Theorem files_before_subdirectories
        (pats : list string) (files : list (string * result string))
        (dirs : list (string * tree)) :
  exists own below,
    scan_with pats (Dir files []) = Ok own
    /\ scan_with pats (Dir [] dirs) = Ok below
    /\ scan_with pats (Dir files dirs) = Ok (own ++ below).
Proof.
  exists (map record_of (kept_files pats (Dir files []) [])),
         (map record_of (kept_files pats (Dir [] dirs) [])).
  rewrite !scan_with_spec. split; [reflexivity|]. split; [reflexivity|].
  cbn [kept_files flat_map]. now rewrite <- map_app, app_nil_r.
Qed.

(** ** The extension test *)

Section SuffixFacts.

Open Scope string_scope.

Lemma rfind_from_absent (c : ascii) (s : string) (k : Z) :
  has_char c s = false -> Py.rfind_from c s k = (-1)%Z.
Proof.
  revert k; induction s as [|a s IH]; intros k H; [reflexivity|].
  cbn in H. apply orb_false_elim in H. destruct H as [Ha Hs].
  cbn [Py.rfind_from]. rewrite (IH _ Hs), Ha. reflexivity.
Qed.

Lemma rfind_from_last (c : ascii) (a e : string) (k : Z) :
  (0 <= k)%Z -> has_char c e = false ->
  Py.rfind_from c (a ++ String c e) k = (k + Z.of_nat (String.length a))%Z.
Proof.
  revert k; induction a as [|x a IH]; intros k Hk He.
  - cbn [append Py.rfind_from String.length].
    rewrite (rfind_from_absent _ _ _ He), Ascii.eqb_refl. cbn. lia.
  - cbn [append Py.rfind_from String.length].
    rewrite IH by (assumption || lia).
    replace (0 <=? k + 1 + Z.of_nat (String.length a))%Z with true
      by (symmetry; apply Z.leb_le; lia).
    lia.
Qed.

Lemma slice_from_append (a b : string) :
  Py.slice_from (String.length a) (a ++ b) = b.
Proof. induction a as [|x a IH]; [now destruct b | exact IH]. Qed.

Lemma lower_char_dot (c : ascii) :
  Ascii.eqb (Py.lower_char c) "." = Ascii.eqb c ".".
Proof. destruct c as [[] [] [] [] [] [] [] []]; reflexivity. Qed.

Lemma has_dot_lower (s : string) :
  has_char "." (Py.lower s) = has_char "." s.
Proof.
  induction s as [|c s IH]; [reflexivity|]. cbn. now rewrite lower_char_dot, IH.
Qed.

Lemma lower_append (a b : string) :
  Py.lower (a ++ b) = Py.lower a ++ Py.lower b.
Proof. induction a as [|c a IH]; cbn; [reflexivity | now rewrite IH]. Qed.

Lemma not_extensionless_with_dot (nm : string) :
  has_char "." nm = true -> Py.mem (Py.lower nm) EXTENSIONLESS_NAMES = false.
Proof.
  intros H. rewrite <- has_dot_lower in H.
  destruct (Py.mem (Py.lower nm) EXTENSIONLESS_NAMES) eqn:E; [|reflexivity].
  apply mem_spec in E. cbn in E.
  destruct E as [E | [E | []]]; rewrite <- E in H; discriminate.
Qed.

(** X14. A name with a stem and a last extension is judged by that
    extension alone, lower-cased: [archive.tar.gz] by [.gz], [App.min.JS] by
    [.js]. *)
Theorem suffix_is_last_extension (stem ext : string) :
  stem <> "" -> ext <> "" -> has_char "." ext = false ->
  Path.suffix (stem ++ "." ++ ext) = "." ++ ext
  /\ extension_ok (stem ++ "." ++ ext)
     = Py.mem (Py.lower ("." ++ ext)) TEXT_EXTENSIONS.
Proof.
  intros Hs He Hdot.
  assert (Hsuf : Path.suffix (stem ++ "." ++ ext) = "." ++ ext).
  { unfold Path.suffix, Py.rfind.
    change (stem ++ "." ++ ext) with (stem ++ String "." ext).
    rewrite rfind_from_last by (assumption || lia).
    rewrite append_length. cbn [String.length].
    replace ((0 <? 0 + Z.of_nat (String.length stem))%Z) with true.
    2:{ symmetry. apply Z.ltb_lt. destruct stem; [congruence | cbn; lia]. }
    replace ((0 + Z.of_nat (String.length stem)
              <? Z.of_nat (String.length stem + S (String.length ext)) - 1)%Z)
      with true.
    2:{ symmetry. apply Z.ltb_lt. destruct ext; [congruence | cbn; lia]. }
    cbn [andb]. rewrite Z.add_0_l, Nat2Z.id. apply slice_from_append. }
  split; [exact Hsuf|].
  unfold extension_ok. rewrite Hsuf.
  rewrite not_extensionless_with_dot; [apply orb_false_r|].
  rewrite !has_char_append. cbn. now rewrite orb_true_r.
Qed.

Lemma suffix_is_last_extension_witness :
  extension_ok "App.min.JS" = Py.mem (Py.lower ".JS") TEXT_EXTENSIONS.
Proof.
  refine (proj2 (suffix_is_last_extension "App.min" "JS" _ _ eq_refl));
    discriminate.
Defined.

(** X15. A name that begins with a dot and has no other dot has no
    suffix, so the scanner skips the file whatever the rules are:
    [.bashrc], [.eslintrc] and [.py] are never recorded. *)
Theorem dotfiles_are_skipped (rest : string) :
  has_char "." rest = false ->
  Path.suffix (String "." rest) = ""
  /\ extension_ok (String "." rest) = false
  /\ forall pats root_rel read_text files_data,
       scan_file pats root_rel (String "." rest) read_text files_data
       = Ok files_data.
Proof.
  intros Hdot.
  assert (Hsuf : Path.suffix (String "." rest) = "").
  { unfold Path.suffix, Py.rfind. cbn [Py.rfind_from].
    rewrite (rfind_from_absent _ _ _ Hdot). reflexivity. }
  assert (Hext : extension_ok (String "." rest) = false).
  { unfold extension_ok. rewrite Hsuf. reflexivity. }
  split; [exact Hsuf|]. split; [exact Hext|].
  intros pats root_rel read_text fd. unfold scan_file. rewrite Hext.
  destruct (is_ignored (root_rel ++ [String "." rest]) pats); reflexivity.
Qed.

Lemma dotfiles_are_skipped_witness :
  scan_file [] ["home"] ".bashrc" (Ok "alias ll=ls") [] = Ok [].
Proof.
  exact (proj2 (proj2 (dotfiles_are_skipped "bashrc" eq_refl))
           [] ["home"] (Ok "alias ll=ls") []).
Defined.

End SuffixFacts.

(** ** The context assembler *)

Lemma context_part_length (r : FileRecord) :
  String.length (context_part r)
  = String.length (path r) + String.length (content r) + 16.
Proof.
  unfold context_part. rewrite !append_length. cbn [String.length Py.nl]. lia.
Qed.

(** X17. The context is as long as its records together: each path and
    each text in full, sixteen characters of delimiter and line feeds per
    record, and one line feed between two records.  Nothing is cut. *)
Theorem context_size (files_data : list FileRecord) :
  String.length (build_context files_data)
  = list_sum (map (fun r => String.length (path r) + String.length (content r) + 16)
                  files_data)
    + (List.length files_data - 1).
Proof.
  induction files_data as [|r l IH]; [reflexivity|].
  destruct l as [|r' l].
  - change (build_context [r]) with (context_part r).
    rewrite context_part_length. cbn. lia.
  - rewrite build_context_cons, !append_length, context_part_length, IH.
    cbn [map list_sum List.length String.length Py.nl fold_right]. lia.
Qed.

(** ** The generation orchestrator *)

Lemma attempts_in_models client contents (models : list string) :
  forall history a,
    In a (attempts client contents history models) -> In (fst a) models.
Proof.
  induction models as [|m rest IH]; intros history a; cbn [attempts];
    [intros []|].
  intros [<- | Hin]; [now left|].
  destruct (succeeded (client history (mkRequest m contents))); [destruct Hin|].
  right. eapply IH. eassumption.
Qed.

Lemma user_prompt_contains (context : string) :
  occurs_in context (user_prompt context).
Proof.
  unfold user_prompt.
  exists ("Analyze the following codebase and generate the Deployer & Developer Guide."
          ++ Py.nl ++ Py.nl ++ "CODEBASE CONTENTS:" ++ Py.nl)%string,
         (Py.nl ++ Py.nl ++ "Generate the complete documentation now.")%string.
  now rewrite !append_assoc.
Qed.

(** X18. Whatever happens, every request [generate_documentation] sends
    goes to one of the candidate models and carries the same prompt, in
    which the context stands whole; when no key is resolved, no request is
    sent. *)
Theorem every_request_carries_the_context script_dir genai_Client
        (context : string) (model_name : option string) (w : world) :
  occurs_in context (user_prompt context)
  /\ exists sent,
       requests (snd (generate_documentation script_dir genai_Client
                        context model_name w))
       = requests w ++ sent
       /\ (forall r, In r sent ->
                     req_contents r = user_prompt context
                     /\ In (req_model r) (models_to_try model_name))
       /\ (forall c, fst (get_api_key script_dir w) = SysExit c -> sent = []).
Proof.
  split; [apply user_prompt_contains|].
  destruct (get_api_key script_dir w) as [[k|c] w1] eqn:E.
  - rewrite (generate_documentation_spec _ _ _ _ _ _ _ E), try_models_spec.
    apply get_api_key_returns in E. destruct E as [_ [_ [_ [Hreq _]]]].
    cbv zeta. rewrite Hreq.
    set (att := attempts (genai_Client k) (user_prompt context) (requests w)
                         (models_to_try model_name)).
    exists (map (fun a => mkRequest (fst a) (user_prompt context)) att).
    split; [destruct (first_success att); reflexivity|].
    split; [|intros c Hc; discriminate Hc].
    intros r Hr. apply in_map_iff in Hr. destruct Hr as [a [<- Ha]].
    split; [reflexivity|]. cbn. eapply attempts_in_models. exact Ha.
  - rewrite (generate_documentation_no_key _ _ _ _ _ _ _ E).
    exists []. cbn. rewrite app_nil_r. split; [reflexivity|].
    split; [intros r [] | reflexivity].
Qed.

(** X19. A model forced by the caller gets exactly one request, whether it
    answers, answers nothing or fails: the default models are not tried. *)
Theorem forced_model_single_request script_dir genai_Client
        (context : string) (m : string) (w w1 : world) (k : string) :
  get_api_key script_dir w = (Returns k, w1) -> m <> ""%string ->
  requests (snd (generate_documentation script_dir genai_Client
                   context (Some m) w))
  = requests w ++ [mkRequest m (user_prompt context)].
Proof.
  intros Hkey Hm.
  rewrite (generate_documentation_spec _ _ _ _ _ _ _ Hkey), try_models_spec.
  apply get_api_key_returns in Hkey. destruct Hkey as [_ [_ [_ [Hreq _]]]].
  cbv zeta. rewrite Hreq.
  destruct m as [|c m]; [congruence|].
  cbn [models_to_try Py.truthy attempts].
  destruct (succeeded (genai_Client k (requests w)
                         (mkRequest (String c m) (user_prompt context)))) eqn:Es;
    cbn [first_success snd]; rewrite ?Es; reflexivity.
Qed.

Lemma forced_model_single_request_witness :
  requests (snd (generate_documentation (FsRoot NoFile) failing_backend
                   "ctx" (Some PRIMARY_MODEL) (initial_world (Some "key"%string))))
  = [] ++ [mkRequest PRIMARY_MODEL (user_prompt "ctx")].
Proof.
  refine (forced_model_single_request (FsRoot NoFile) failing_backend "ctx"
            PRIMARY_MODEL (initial_world (Some "key"%string))
            (initial_world (Some "key"%string)) "key" eq_refl _).
  discriminate.
Defined.

Lemma strip_all_space (t : string) : all_space t = true -> Py.strip t = ""%string.
Proof.
  intros H. unfold Py.strip, Py.strip_with.
  replace (Py.lstrip Py.isspace t) with ""%string; [reflexivity|].
  induction t as [|c t IH]; [reflexivity|].
  cbn in H. apply andb_true_iff in H. destruct H as [Hc Ht].
  cbn. rewrite Hc. now apply IH.
Qed.

(** X20. An answer that is not empty but is white space only counts as a
    success: the run stops there, no further candidate is asked, and the
    documentation returned is the empty string. *)
Theorem blank_answer_ends_the_run genai_Client (api_key contents : string)
        (model : string) (rest : list string) (last_exception : option exn)
        (w : world) (t : string) :
  genai_Client api_key (requests w) (mkRequest model contents) = Ok (Some t) ->
  t <> ""%string -> all_space t = true ->
  try_models genai_Client api_key contents (model :: rest) last_exception w
  = (Returns ""%string,
     mkWorld (environ w) (stdout w ++ [MsgAttempting model])
             (requests w ++ [mkRequest model contents]) (written w)).
Proof.
  intros Hans Ht Hsp. rewrite try_models_cons. cbv zeta. rewrite Hans.
  destruct t as [|c t]; [congruence|]. cbn [succeeded Py.truthy].
  now rewrite (strip_all_space _ Hsp).
Qed.

Lemma blank_answer_ends_the_run_witness :
  try_models (fun _ _ _ => Ok (Some (" " ++ Py.nl)%string)) "key" "prompt"
             [PRIMARY_MODEL; FALLBACK_MODEL] None (initial_world (Some "key"%string))
  = (Returns ""%string,
     mkWorld (Some "key"%string) ([] ++ [MsgAttempting PRIMARY_MODEL])
             ([] ++ [mkRequest PRIMARY_MODEL "prompt"]) []).
Proof.
  refine (blank_answer_ends_the_run (fun _ _ _ => Ok (Some (" " ++ Py.nl)%string))
            "key" "prompt" PRIMARY_MODEL [FALLBACK_MODEL] None
            (initial_world (Some "key"%string)) (" " ++ Py.nl)%string
            eq_refl _ eq_refl).
  discriminate.
Defined.

(** X21. Without a key no request is sent: when neither the environment
    nor the files give a non-empty key, [generate_documentation] prints the
    message, exits with status 1 and leaves the requests and the written
    files as they were. *)
Theorem no_key_no_request script_dir genai_Client
        (context : string) (model_name : option string) (w : world) :
  truthy_opt (environ w) = false ->
  truthy_opt (load_env_loop 6 script_dir (environ w)) = false ->
  generate_documentation script_dir genai_Client context model_name w
  = (SysExit 1,
     mkWorld (load_env_loop 6 script_dir (environ w))
             (stdout w ++ [MsgKeyNotSet]) (requests w) (written w)).
Proof.
  intros He Hf.
  assert (Hkey : get_api_key script_dir w
                 = (SysExit 1,
                    mkWorld (load_env_loop 6 script_dir (environ w))
                            (stdout w ++ [MsgKeyNotSet]) (requests w) (written w))).
  { rewrite get_api_key_spec. cbv zeta. now rewrite He, Hf. }
  now rewrite (generate_documentation_no_key _ _ _ _ _ _ _ Hkey).
Qed.

Lemma no_key_no_request_witness :
  generate_documentation (Child (Text "OTHER=1") (FsRoot NoFile)) padded_backend
                         "ctx" None (initial_world None)
  = (SysExit 1, mkWorld None ([] ++ [MsgKeyNotSet]) [] []).
Proof.
  exact (no_key_no_request (Child (Text "OTHER=1") (FsRoot NoFile)) padded_backend
           "ctx" None (initial_world None) eq_refl eq_refl).
Defined.

(** ** [main] *)

(** X22. When the path does not exist, or when the scan keeps no file,
    [main] exits with status 1 before the key is looked up: the
    environment is not touched, no request is sent and nothing is
    written. *)
Theorem main_stops_before_the_key script_dir genai_Client resolve
        (a : args) (w : world) :
  resolve (arg_path a) = None
  \/ (exists repo_root, resolve (arg_path a) = Some repo_root
                        /\ scan_codebase repo_root = Ok []) ->
  let run := main script_dir genai_Client resolve a w in
  fst run = SysExit 1
  /\ environ (snd run) = environ w
  /\ requests (snd run) = requests w
  /\ written (snd run) = written w
  /\ exists line, stdout (snd run) = stdout w ++ line
                  /\ (line = [MsgPathNotFound (arg_path a)]
                      \/ line = [MsgScanning (arg_path a); MsgFound 0; MsgNoFiles]).
Proof.
  intros H run. unfold run. rewrite main_spec.
  destruct H as [-> | [repo [-> ->]]]; cbn; repeat split; eauto.
Qed.

Lemma main_stops_before_the_key_witness :
  fst (main (FsRoot NoFile) padded_backend
            (fun _ => Some (Dir [("logo.png"%string, Ok "..."%string)] []))
            (mkArgs "." "Deployer_Guide.md" None) (initial_world None))
  = SysExit 1.
Proof.
  refine (proj1 (main_stops_before_the_key (FsRoot NoFile) padded_backend
            (fun _ => Some (Dir [("logo.png"%string, Ok "..."%string)] []))
            (mkArgs "." "Deployer_Guide.md" None) (initial_world None) _)).
  right. eexists. split; reflexivity.
Defined.

(** X23. [main] returns only after a scan that kept a file and a
    generation that returned: it then has written one file, the returned
    documentation at the output path, and printed the two closing lines
    after everything else. *)
Theorem main_success_writes_once script_dir genai_Client resolve
        (a : args) (w : world) :
  fst (main script_dir genai_Client resolve a w) = Returns tt ->
  exists repo_root files_data documentation w',
    resolve (arg_path a) = Some repo_root
    /\ scan_codebase repo_root = Ok files_data /\ files_data <> []
    /\ generate_documentation script_dir genai_Client
         (build_context files_data) (arg_model a)
         (before_generation a files_data w)
       = (Returns documentation, w')
    /\ written (snd (main script_dir genai_Client resolve a w))
       = written w ++ [(arg_output a, documentation)]
    /\ stdout (snd (main script_dir genai_Client resolve a w))
       = stdout w' ++ [MsgSaved (arg_output a); MsgReviewNote]
    /\ requests (snd (main script_dir genai_Client resolve a w)) = requests w'.
Proof.
  rewrite main_spec.
  destruct (resolve (arg_path a)) as [repo|] eqn:Hres; [|discriminate].
  destruct (scan_codebase repo) as [[|r l]|e] eqn:Hscan; try discriminate.
  pose proof (generate_documentation_written script_dir genai_Client
                (build_context (r :: l)) (arg_model a)
                (before_generation a (r :: l) w)) as Hw.
  destruct (generate_documentation script_dir genai_Client
              (build_context (r :: l)) (arg_model a)
              (before_generation a (r :: l) w)) as [[doc|c] w'] eqn:E;
    [|discriminate].
  intros _. exists repo, (r :: l), doc, w'.
  split; [reflexivity|]. split; [exact Hscan|]. split; [discriminate|].
  split; [exact E|].
  cbn [snd written stdout requests before_generation printed] in Hw |- *.
  rewrite Hw. auto.
Qed.

Lemma main_success_writes_once_witness :
  exists repo_root files_data documentation w',
    (fun _ : string => Some (Dir [("app.py"%string, Ok "print(1)"%string)] [])) "."%string
    = Some repo_root
    /\ scan_codebase repo_root = Ok files_data /\ files_data <> []
    /\ generate_documentation (FsRoot NoFile) padded_backend
         (build_context files_data) None
         (before_generation (mkArgs "." "out.md" None) files_data
                            (initial_world (Some "key"%string)))
       = (Returns documentation, w')
    /\ written (snd (main (FsRoot NoFile) padded_backend
                       (fun _ => Some (Dir [("app.py"%string, Ok "print(1)"%string)] []))
                       (mkArgs "." "out.md" None) (initial_world (Some "key"%string))))
       = [] ++ [("out.md"%string, documentation)]
    /\ stdout (snd (main (FsRoot NoFile) padded_backend
                      (fun _ => Some (Dir [("app.py"%string, Ok "print(1)"%string)] []))
                      (mkArgs "." "out.md" None) (initial_world (Some "key"%string))))
       = stdout w' ++ [MsgSaved "out.md"; MsgReviewNote]
    /\ requests (snd (main (FsRoot NoFile) padded_backend
                        (fun _ => Some (Dir [("app.py"%string, Ok "print(1)"%string)] []))
                        (mkArgs "." "out.md" None) (initial_world (Some "key"%string))))
       = requests w'.
Proof.
  exact (main_success_writes_once (FsRoot NoFile) padded_backend
           (fun _ => Some (Dir [("app.py"%string, Ok "print(1)"%string)] []))
           (mkArgs "." "out.md" None) (initial_world (Some "key"%string))
           eq_refl).
Defined.
